(** * rpi-bot: command templating, dispatch and the Signal socket adapter

    A shallow embedding of the Go sources of rpi-bot (package [main] and
    package [messaging]) together with the parts of the Go standard
    library they call ([strings], [fmt], [errors], [slices]), followed by
    the properties of the program stated against its specification. *)

From Stdlib Require Import ZArith Ascii DecimalString.
From stdpp Require Import base option list strings gmap.

(** ** Outcomes

    A Go call either returns, panics, or leaves the part of the standard
    library that is modelled here (see [fmt.doPrintf]). *)

Inductive outcome (A : Type) : Type :=
| Ret (a : A)
| Panic (reason : string)
| Unmodelled.
Arguments Ret {A} a.
Arguments Panic {A} reason.
Arguments Unmodelled {A}.

#[global] Instance outcome_ret : MRet outcome := @Ret.
#[global] Instance outcome_bind : MBind outcome := λ A B f m,
  match m with
  | Ret a => f a
  | Panic r => Panic r
  | Unmodelled => Unmodelled
  end.
#[global] Instance outcome_fmap : FMap outcome := λ A B f m,
  match m with
  | Ret a => Ret (f a)
  | Panic r => Panic r
  | Unmodelled => Unmodelled
  end.

(** ** Package errors *)

Module errors.

(** The two sentinel values the program tests with [errors.Is]. *)
Inductive sentinel : Type := io_EOF | net_ErrClosed.

Inductive error : Type :=
| Sentinel (s : sentinel)
| New (text : string)
| Wrapped (text : string) (inner : error).

Definition sentinel_eqb (a b : sentinel) : bool :=
  match a, b with
  | io_EOF, io_EOF | net_ErrClosed, net_ErrClosed => true
  | _, _ => false
  end.

(** [err.Error()] *)
Definition Error (err : error) : string :=
  match err with
  | Sentinel io_EOF => "EOF"
  | Sentinel net_ErrClosed => "use of closed network connection"
  | New text => text
  | Wrapped text _ => text
  end.

(** [errors.Is(err, target)] for a sentinel target: walks the chain of
    wrapped errors. *)
Fixpoint Is (err : error) (target : sentinel) : bool :=
  match err with
  | Sentinel s => sentinel_eqb s target
  | New _ => false
  | Wrapped _ inner => Is inner target
  end.

End errors.

Abbreviation error := errors.error.

(** ** Package strings *)

Module strings.

(** [strings.HasPrefix(s, prefix)] *)
Definition HasPrefix (s prefix : string) : bool := String.prefix prefix s.

Fixpoint drop_bytes (n : nat) (s : string) : string :=
  match n, s with
  | O, _ => s
  | S _, "" => ""
  | S n', String _ s' => drop_bytes n' s'
  end.

(** [strings.TrimPrefix(s, prefix)] *)
Definition TrimPrefix (s prefix : string) : string :=
  if HasPrefix s prefix then drop_bytes (String.length prefix) s else s.

(** Scan of [s] used by [Count]: [skip] is the number of bytes of the
    current position that belong to the occurrence just counted. *)
Fixpoint count_from (skip : nat) (s substr : string) : nat :=
  match s with
  | "" => 0
  | String _ s' =>
      match skip with
      | S k => count_from k s' substr
      | O =>
          if String.prefix substr s
          then S (count_from (String.length substr - 1) s' substr)
          else count_from 0 s' substr
      end
  end.

(** [strings.Count(s, substr)] for a non-empty [substr]: the number of
    non-overlapping instances of [substr] in [s]. *)
Definition Count (s substr : string) : nat := count_from 0 s substr.

(** Scan of [s] used by [Split]; [skip] as in [count_from]. *)
Fixpoint split_from (skip : nat) (s sep : string) : list string :=
  match s with
  | "" => [""]
  | String c s' =>
      match skip with
      | S k => split_from k s' sep
      | O =>
          if String.prefix sep s
          then "" :: split_from (String.length sep - 1) s' sep
          else match split_from 0 s' sep with
               | t :: ts => String c t :: ts
               | [] => [String c ""]
               end
      end
  end.

(** [strings.Split(s, sep)] for a non-empty [sep]: the substrings of
    [s] between the occurrences of [sep]. *)
Definition Split (s sep : string) : list string := split_from 0 s sep.

(** [strings.Join(elems, sep)] *)
Fixpoint Join (elems : list string) (sep : string) : string :=
  match elems with
  | [] => ""
  | [e] => e
  | e :: rest => e +:+ sep +:+ Join rest sep
  end.

End strings.

(** ** Package slices *)

Module slices.

(** [slices.Contains(s, v)] on a slice of strings. *)
Fixpoint Contains (s : list string) (v : string) : bool :=
  match s with
  | [] => false
  | x :: s' => if String.eqb v x then true else Contains s' v
  end.

End slices.

(** ** Package fmt

    The formatter is modelled on operands of the three dynamic types the
    program passes ([string], [int], [error]) and on directives made of
    ['%'] and one verb byte.  Flags, widths, precisions, argument indexes
    and the verbs whose output needs quoting or another number base are
    [Unmodelled]. *)

Module fmt.

Inductive any : Type :=
| Nil
| String_ (s : string)
| Int (n : Z)
| Error_ (e : error).

(** Decimal rendering of an [int]. *)
Definition itoa (n : Z) : string := NilEmpty.string_of_int (Z.to_int n).

Fixpoint byte_in (c : ascii) (set : string) : bool :=
  match set with
  | "" => false
  | String x set' => Ascii.eqb c x || byte_in c set'
  end.

(** What may stand between ['%'] and the verb (flags, width, precision,
    argument index), or a verb that is not a single ASCII byte. *)
Definition complexDirective (c : ascii) : bool :=
  byte_in c "#0+- 123456789.*[" || (128 <=? nat_of_ascii c)%nat.

(** The operand as [type=value], the form used in the diagnostics
    [%!verb(type=value)] and [%!(EXTRA type=value, ...)]; a nil operand
    is written [<nil>].  The type name of an error value depends on its
    implementation and is not modelled. *)
Definition typedValue (arg : any) : outcome string :=
  match arg with
  | Nil => Ret "<nil>"
  | String_ s => Ret ("string=" +:+ s)
  | Int n => Ret ("int=" +:+ itoa n)
  | Error_ _ => Unmodelled
  end.

(** [p.badVerb(verb)] *)
Definition badVerb (arg : any) (verb : ascii) : outcome string :=
  tv ← typedValue arg;
  Ret ("%!" +:+ String verb "(" +:+ tv +:+ ")").

(** [p.printArg(arg, verb)] without flags. *)
Definition printArg (arg : any) (verb : ascii) : outcome string :=
  match arg with
  | Nil =>
      if byte_in verb "Tv" then Ret "<nil>" else badVerb arg verb
  | String_ s =>
      if Ascii.eqb verb "T" then Ret "string"
      else if byte_in verb "sv" then Ret s
      else if byte_in verb "qxX" then Unmodelled
      else badVerb arg verb
  | Int n =>
      if Ascii.eqb verb "T" then Ret "int"
      else if byte_in verb "dv" then Ret (itoa n)
      else if byte_in verb "bcoOqxXU" then Unmodelled
      else badVerb arg verb
  | Error_ e =>
      if byte_in verb "sv" then Ret (errors.Error e)
      else Unmodelled
  end.

(** The operands left over when the format is exhausted. *)
Fixpoint extraArgs (a : list any) : outcome string :=
  match a with
  | [] => Ret ""
  | [arg] => typedValue arg
  | arg :: a' =>
      tv ← typedValue arg;
      rest ← extraArgs a';
      Ret (tv +:+ ", " +:+ rest)
  end.

Definition extra (a : list any) : outcome string :=
  match a with
  | [] => Ret ""
  | _ => args ← extraArgs a; Ret ("%!(EXTRA " +:+ args +:+ ")")
  end.

(** [p.doPrintf(format, a)]: [a] holds the operands not yet consumed. *)
Fixpoint doPrintf (format : string) (a : list any) : outcome string :=
  match format with
  | "" => extra a
  | String c rest =>
      if Ascii.eqb c "%" then
        match rest with
        | "" => tail ← extra a; Ret ("%!(NOVERB)" +:+ tail)
        | String verb rest' =>
            if Ascii.eqb verb "%" then
              tail ← doPrintf rest' a; Ret (String "%" tail)
            else if complexDirective verb then Unmodelled
            else
              match a with
              | [] =>
                  tail ← doPrintf rest' [];
                  Ret ("%!" +:+ String verb "(MISSING)" +:+ tail)
              | arg :: a' =>
                  text ← printArg arg verb;
                  tail ← doPrintf rest' a';
                  Ret (text +:+ tail)
              end
        end
      else tail ← doPrintf rest a; Ret (String c tail)
  end.

(** [fmt.Sprintf(format, a...)] *)
Definition Sprintf (format : string) (a : list any) : outcome string :=
  doPrintf format a.

(** [fmt.Errorf(format, a...)] *)
Definition Errorf (format : string) (a : list any) : outcome error :=
  text ← Sprintf format a; Ret (errors.New text).

End fmt.

(** ** Package encoding/json

    Decoding is external to the program.  [Unmarshal] stands for
    [json.Unmarshal(data, &v)] on a zero [v]: the value left in [v] and the
    error returned. *)

Module json.

Definition RawMessage : Type := string.

Class Unmarshal (A : Type) : Type :=
  unmarshal : RawMessage → A * option error.

End json.

(** ** Package messaging *)

Module messaging.

Inductive MessageType : Type := Command | Response | Chat | Update.

Module Message.
Record t : Type := mk {
  Type_ : MessageType;
  Command : string;
  Args : list string;
  Raw : string;
  Text : string;
  ChatID : Z;
  Source : string
}.
(** The zero value of the struct ([var message Message]). *)
Definition zero : t := mk messaging.Command "" [] "" "" 0 "".
End Message.

Module rpcError.
Record t : Type := mk { Code : Z; Message : string }.
End rpcError.

Module rpcMessage.
Record t : Type := mk {
  JSONRPC : string;
  Method : string;
  Params : option json.RawMessage;
  Result : option json.RawMessage;
  Error : option rpcError.t;
  ID : option Z
}.
Definition zero : t := mk "" "" None None None None.
End rpcMessage.

Module RecipientAddress.
Record t : Type := mk { UUID : string; Number : string }.
End RecipientAddress.

Module SendResultEntry.
Record t : Type := mk { RecipientAddress : RecipientAddress.t; Type_ : string }.
End SendResultEntry.

Module SendResult.
Record t : Type := mk { Timestamp : Z; Results : list SendResultEntry.t }.
End SendResult.

Module SentMessage.
Record t : Type := mk {
  Destination : string;
  DestinationNumber : string;
  DestinationUUID : string;
  ExpiresInSeconds : Z;
  Message : string;
  Timestamp : Z;
  ViewOnce : bool
}.
End SentMessage.

Module SyncMessage.
Record t : Type := mk { SentMessage : SentMessage.t }.
End SyncMessage.

Module Envelope.
Record t : Type := mk {
  ServerDeliveredTimestamp : Z;
  ServerReceivedTimestamp : Z;
  Source : string;
  SourceDevice : Z;
  SourceName : string;
  SourceNumber : string;
  SourceUUID : string;
  SyncMessage : SyncMessage.t
}.
End Envelope.

Module ReceiveParams.
Record t : Type := mk { Account : string; Envelope : Envelope.t; Timestamp : Z }.
End ReceiveParams.

(** [*p] on a pointer that may be nil. *)
Definition deref {A : Type} (p : option A) : outcome A :=
  match p with
  | Some v => Ret v
  | None => Panic "invalid memory address or nil pointer dereference"
  end.

Section signal.
Context {UnmarshalParams : json.Unmarshal ReceiveParams.t}
        {UnmarshalResult : json.Unmarshal SendResult.t}.

Definition parseMessage (msg : rpcMessage.t) (sources : list string)
  : outcome (Message.t * option error) :=
  params ← deref (rpcMessage.Params msg);
  let '(recvParams, err) := json.unmarshal (A:=ReceiveParams.t) params in
  match err with
  | Some err =>
      err ← fmt.Errorf
        "messageReceiver: unmarshal notification error to interface map: %v"
        [fmt.Error_ err];
      Ret (Message.zero, Some err)
  | None =>
      let SourceNumber := Envelope.SourceNumber (ReceiveParams.Envelope recvParams) in
      if negb (slices.Contains sources SourceNumber) then
        err ← fmt.Errorf
          "messageReceiver: Message ignored as sources is not valid: %s"
          [fmt.String_ SourceNumber];
        Ret (Message.zero, Some err)
      else
        let commands :=
          strings.Split
            (SentMessage.Message
               (SyncMessage.SentMessage
                  (Envelope.SyncMessage (ReceiveParams.Envelope recvParams))))
            " " in
        match commands with
        | [] => Panic "index out of range [0] with length 0"
        | command :: rest =>
            let '(messageType, command) :=
              if strings.HasPrefix command "/"
              then (Command, strings.TrimPrefix command "/")
              else (Chat, command) in
            Ret (Message.mk messageType command rest params "" 0 SourceNumber,
                 None)
        end
  end.

Definition parseResponse (msg : rpcMessage.t)
  : outcome (Message.t * option error) :=
  result ← deref (rpcMessage.Result msg);
  let '(_, err) := json.unmarshal (A:=SendResult.t) result in
  match err with
  | Some err =>
      err ← fmt.Errorf
        "messageReceiver: unmarshal response error to interface map: %v"
        [fmt.Error_ err];
      Ret (Message.zero, Some err)
  | None => Ret (Message.mk Response "" [] result "" 0 "", None)
  end.

(** One turn of the receive loop as the loop sees it: whether the
    context is done when the [select] runs, and what [s.dec.Decode(&msg)]
    leaves in [msg] and returns. *)
Record read : Type := mkRead {
  ctxDone : bool;
  decoded : rpcMessage.t;
  decodeErr : option error
}.

(** What the loop does that is visible outside it.  The two log lines
    that print a pointer or a whole struct keep their operands. *)
Inductive event : Type :=
| Log (line : string)
| LogRPCError (ID : option Z) (message : string)
| LogUnrecognized (msg : rpcMessage.t)
| ChanSend (m : Message.t)
| ChanClose.

(** [messageReceiver] run on the turns [reads]; when they are used up
    the loop is blocked in [Decode].  [ChanClose] is the deferred
    [close(s.ch)].  The goroutine that closes the connection once the
    context is done shows here as a read that fails with
    [net.ErrClosed], and the line it logs, which may come after the
    loop has returned, is not among the events; the consumer is taken
    to drain the channel, so that a send on it does not block. *)
Fixpoint messageReceiver (sources : list string) (reads : list read)
  : outcome (list event) :=
  match reads with
  | [] => Ret []
  | r :: reads' =>
      let continue (now : list event) : outcome (list event) :=
        later ← messageReceiver sources reads'; Ret (now ++ later) in
      if ctxDone r then
        Ret [Log "messageReceiver: context done, exiting loop"; ChanClose]
      else
        let msg := decoded r in
        let exit : option string :=
          match decodeErr r with
          | Some err =>
              if errors.Is err errors.io_EOF then
                Some "messageReceiver: socket closed (EOF), exiting"
              else if errors.Is err errors.net_ErrClosed then
                Some "messageReceiver: connection closed (net.ErrClosed), exiting"
              else None
          | None => None
          end in
        match exit with
        | Some line => Ret [Log line; ChanClose]
        | None =>
            match rpcMessage.Error msg with
            | Some e =>
                continue [LogRPCError (rpcMessage.ID msg) (rpcError.Message e)]
            | None =>
                if bool_decide (is_Some (rpcMessage.Params msg))
                   && String.eqb (rpcMessage.Method msg) "receive" then
                  '(m, err) ← parseMessage msg sources;
                  match err with
                  | Some err => continue [Log (errors.Error err)]
                  | None => continue [ChanSend m]
                  end
                else if bool_decide (is_Some (rpcMessage.Result msg)) then
                  '(m, err) ← parseResponse msg;
                  match err with
                  | Some err => continue [Log (errors.Error err)]
                  | None => continue [ChanSend m]
                  end
                else continue [LogUnrecognized msg]
            end
        end
  end.

End signal.

End messaging.

(** ** Package os/exec

    Running a process is external to the program: [CombinedOutput] stands
    for [exec.Command(name, arg...).CombinedOutput()] in a world [W]. *)

Module exec.

Class Runner (W : Type) : Type :=
  CombinedOutput : W → string → list string → (string * option error) * W.

End exec.

(** ** Package net/http

    Requests carry what the handlers of the program read; a
    [ResponseWriter] records what is written to it.  Header keys are in
    canonical form. *)

Module http.

Definition Header : Type := gmap string (list string).

Definition Header_Get (h : Header) (key : string) : string :=
  match h !! key with
  | Some (v :: _) => v
  | _ => ""
  end.

Definition Header_Set (h : Header) (key value : string) : Header :=
  <[key := [value]]> h.

Definition Header_Del (h : Header) (key : string) : Header := delete key h.

Module Request.
Record t : Type := mk { Method : string; URL_Path : string; Header : http.Header }.
End Request.

Module ResponseWriter.
Record t : Type := mk {
  Code : option Z;
  HeaderMap : http.Header;
  Body : string
}.
Definition fresh : t := mk None ∅ "".
End ResponseWriter.

Definition StatusOK : Z := 200.
Definition StatusUnauthorized : Z := 401.

(** [w.WriteHeader(code)]: only the first call sets the status. *)
Definition WriteHeader (w : ResponseWriter.t) (code : Z) : ResponseWriter.t :=
  match ResponseWriter.Code w with
  | Some _ => w
  | None => ResponseWriter.mk (Some code) (ResponseWriter.HeaderMap w) (ResponseWriter.Body w)
  end.

(** [w.Write(data)]: the status defaults to 200 on the first write. *)
Definition Write (w : ResponseWriter.t) (data : string) : ResponseWriter.t :=
  let w := WriteHeader w StatusOK in
  ResponseWriter.mk (ResponseWriter.Code w) (ResponseWriter.HeaderMap w)
    (ResponseWriter.Body w +:+ data).

(** [http.Error(w, error, code)] *)
Definition Error (w : ResponseWriter.t) (error : string) (code : Z) : ResponseWriter.t :=
  let h := ResponseWriter.HeaderMap w in
  let h := Header_Del h "Content-Length" in
  let h := Header_Set h "Content-Type" "text/plain; charset=utf-8" in
  let h := Header_Set h "X-Content-Type-Options" "nosniff" in
  let w := ResponseWriter.mk (ResponseWriter.Code w) h (ResponseWriter.Body w) in
  let w := WriteHeader w code in
  Write w (error +:+ String "010" "").

Definition Handler : Type := Request.t → ResponseWriter.t → outcome ResponseWriter.t.

(** A [ServeMux] is the list of its registrations. *)
Definition ServeMux : Type := list (string * Handler).

Definition NewServeMux : ServeMux := [].

Definition Handle (mux : ServeMux) (pattern : string) (handler : Handler) : ServeMux :=
  mux ++ [(pattern, handler)].

Fixpoint endsWithSlash (s : string) : bool :=
  match s with
  | "" => false
  | String c "" => Ascii.eqb c "/"
  | String _ s' => endsWithSlash s'
  end.

(** A pattern with a trailing slash matches the paths below it, any
    other pattern matches the path equal to it. *)
Definition matches (pattern path : string) : bool :=
  if endsWithSlash pattern then strings.HasPrefix path pattern
  else String.eqb path pattern.

Fixpoint cleanSegments (segments : list string) : bool :=
  match segments with
  | [] => true
  | [last] => negb (String.eqb last "." || String.eqb last "..")
  | seg :: rest =>
      negb (String.eqb seg "" || String.eqb seg "." || String.eqb seg "..")
      && cleanSegments rest
  end.

(** The paths the mux serves as they are: rooted, without empty, [.] or
    [..] segments. *)
Definition isCleanPath (path : string) : bool :=
  match strings.Split path "/" with
  | "" :: segments =>
      match segments with
      | [] => false
      | _ :: _ => cleanSegments segments
      end
  | _ => false
  end.

(** The registration with the longest matching pattern. *)
Fixpoint longestMatch (mux : ServeMux) (path : string) (best : option (string * Handler))
  : option (string * Handler) :=
  match mux with
  | [] => best
  | (pattern, handler) :: mux' =>
      let better :=
        match best with
        | None => true
        | Some (p, _) => (String.length p <? String.length pattern)%nat
        end in
      if matches pattern path && better
      then longestMatch mux' path (Some (pattern, handler))
      else longestMatch mux' path best
  end.

(** [mux.ServeHTTP(w, r)] on patterns that are plain paths and on
    requests whose path is clean and matches a registration.  The
    redirects for other paths and the reply to a path that matches
    nothing are not modelled. *)
Definition ServeHTTP (mux : ServeMux) : Handler := λ r w,
  if isCleanPath (Request.URL_Path r) then
    match longestMatch mux (Request.URL_Path r) None with
    | Some (_, handler) => handler r w
    | None => Unmodelled
    end
  else Unmodelled.

End http.

(** ** Package main *)

Module main.

Import messaging.

Module Command.
Record t : Type := mk { Command : string; Args : list string }.
End Command.

Module TelegramConfig.
Record t : Type := mk { Debug : bool; ApiToken : string }.
End TelegramConfig.

Module SignalConfig.
Record t : Type := mk { Sources : list string; Socket : string }.
End SignalConfig.

Module HttpdConfig.
Record t : Type := mk { Enabled : bool; Addr : string; AuthToken : string }.
End HttpdConfig.

Module Config.
Record t : Type := mk {
  Commands : gmap string Command.t;
  Signal : SignalConfig.t;
  Telegram : TelegramConfig.t;
  Provider : string;
  Httpd : HttpdConfig.t
}.
End Config.

(** The interface [commandExecutor], implemented over a state [E]. *)
Class commandExecutor (E : Type) : Type :=
  execCommand : E → string → outcome ((string * option error) * E).

(** The method [SendMessage] of the interface [messaging.MessageClient],
    implemented over a state [S]. *)
Class MessageSender (S : Type) : Type :=
  SendMessage : S → string → Message.t → outcome (option error * S).

(** The struct [executor] has no fields: its state is the world in which
    processes run, and the lines it has written to the log. *)
Module executor.
Record t (W : Type) : Type := mk { os : W; logged : list string }.
Arguments mk {W} os logged.
Arguments os {W} _.
Arguments logged {W} _.
End executor.

Definition error_operand (err : option error) : fmt.any :=
  match err with
  | Some e => fmt.Error_ e
  | None => fmt.Nil
  end.

Definition executor_execCommand {W : Type} `{!exec.Runner W}
    (e : executor.t W) (command : string)
  : outcome ((string * option error) * executor.t W) :=
  let parsedCommand := strings.Split command " " in
  if (length parsedCommand =? 0)%nat then
    err ← fmt.Errorf "empty command" [];
    Ret (("", Some err), e)
  else
    match parsedCommand with
    | [] => Panic "index out of range [0] with length 0"
    | name :: arg =>
        let '((output, err), os') := exec.CombinedOutput (executor.os e) name arg in
        line ← fmt.Sprintf "Executed command %s. result: %s. Err %s"
                 [fmt.String_ command; fmt.String_ output; error_operand err];
        let e' := executor.mk os' (executor.logged e ++ [line]) in
        match err with
        | Some err => Ret (("", Some err), e')
        | None => Ret ((output, None), e')
        end
    end.

#[global] Instance executor_commandExecutor {W : Type} `{!exec.Runner W}
  : commandExecutor (executor.t W) := executor_execCommand.

Definition createCommand (c : Command.t) (m : Message.t)
  : outcome (string * option error) :=
  if negb (length (Message.Args m) =? length (Command.Args c))%nat then
    err ← fmt.Errorf
      "mismatch between command definition args=%d and number of args=%d"
      [fmt.Int (Z.of_nat (length (Command.Args c)));
       fmt.Int (Z.of_nat (length (Message.Args m)))];
    Ret ("", Some err)
  else
    let placeholderCount := strings.Count (Command.Command c) "%s" in
    if negb (placeholderCount =? length (Command.Args c))%nat then
      err ← fmt.Errorf
        "mismatch between placeholders (%%s)=%d and number of args=%d"
        [fmt.Int (Z.of_nat placeholderCount);
         fmt.Int (Z.of_nat (length (Command.Args c)))];
      Ret ("", Some err)
    else if (length (Command.Args c) =? 0)%nat then
      Ret (Command.Command c, None)
    else
      let iface := map fmt.String_ (Message.Args m) in
      text ← fmt.Sprintf (Command.Command c) iface;
      Ret (text, None).

Definition MessageType_eqb (a b : MessageType) : bool :=
  match a, b with
  | Command, Command | Response, Response | Chat, Chat | Update, Update => true
  | _, _ => false
  end.

(** What the dispatcher does that is visible outside it: the calls of
    the two interface methods and the lines it logs. *)
Inductive event : Type :=
| Executed (command : string)
| Sent (text : string) (replyTo : Message.t)
| Logged (line : string).

(** [MessagingPoller] on the messages [updates] read from the channel of
    [sr.GetUpdates(ctx)] until it is closed. *)
Fixpoint MessagingPoller {S E : Type} `{!MessageSender S, !commandExecutor E}
    (updates : list Message.t) (sr : S) (executor : E)
    (commands : gmap string Command.t)
  : outcome (list event * S * E) :=
  match updates with
  | [] => Ret ([], sr, executor)
  | update :: updates' =>
      if negb (MessageType_eqb (Message.Type_ update) Command) then
        MessagingPoller updates' sr executor commands
      else
        '(msg, calls, executor) ←
          match commands !! Message.Command update with
          | None => Ret ("Command not supported", [], executor)
          | Some command =>
              '(fmtCommand, err) ← createCommand command update;
              match err with
              | Some err =>
                  msg ← fmt.Sprintf "Command formatting failed: %v" [fmt.Error_ err];
                  Ret (msg, [], executor)
              | None =>
                  '((output, err), executor) ← execCommand executor fmtCommand;
                  match err with
                  | Some err =>
                      msg ← fmt.Sprintf "Command %s failed: %v"
                              [fmt.String_ fmtCommand; fmt.Error_ err];
                      Ret (msg, [Executed fmtCommand], executor)
                  | None => Ret (output, [Executed fmtCommand], executor)
                  end
              end
          end;
        '(err, sr) ← SendMessage sr msg update;
        logs ←
          match err with
          | Some err =>
              line ← fmt.Sprintf "Error sending a message: %v" [fmt.Error_ err];
              Ret [Logged line]
          | None => Ret []
          end;
        '(later, sr, executor) ← MessagingPoller updates' sr executor commands;
        Ret (calls ++ [Sent msg update] ++ logs ++ later, sr, executor)
  end.

Definition authMiddleware (token : string) (next : http.Handler) : http.Handler :=
  λ r w,
    let auth := http.Header_Get (http.Request.Header r) "Authorization" in
    if negb (String.eqb token "") && negb (String.eqb auth ("Token " +:+ token)) then
      Ret (http.Error w "unauthorized" http.StatusUnauthorized)
    else next r w.

Definition setupMux (cfg : Config.t) (commandHandler : http.Handler) : http.Handler :=
  let mux := http.NewServeMux in
  let mux :=
    http.Handle mux "/health"
      (λ r w, let w := http.WriteHeader w http.StatusOK in Ret (http.Write w "ok")) in
  let cmdHandler :=
    authMiddleware (HttpdConfig.AuthToken (Config.Httpd cfg)) commandHandler in
  let mux := http.Handle mux "/cmd/" cmdHandler in
  http.ServeHTTP mux.

End main.

(** ** Package strconv

    [Quote] on strings of ASCII bytes; a byte above 127 starts a
    multi-byte rune, whose printing is not modelled. *)

Module strconv.

Definition lowerhex (n : nat) : ascii :=
  match String.get n "0123456789abcdef" with
  | Some c => c
  | None => "0"%char
  end.

(** [appendEscapedRune] inside double quotes, on a rune below 128. *)
Definition escaped (c : ascii) : outcome string :=
  let n := nat_of_ascii c in
  if (128 <=? n)%nat then Unmodelled
  else if (n =? 34)%nat || (n =? 92)%nat then Ret (String "\" (String c ""))
  else if (32 <=? n)%nat && (n <=? 126)%nat then Ret (String c "")
  else if (n =? 7)%nat then Ret "\a"
  else if (n =? 8)%nat then Ret "\b"
  else if (n =? 12)%nat then Ret "\f"
  else if (n =? 10)%nat then Ret "\n"
  else if (n =? 13)%nat then Ret "\r"
  else if (n =? 9)%nat then Ret "\t"
  else if (n =? 11)%nat then Ret "\v"
  else Ret (String "\" (String "x" (String (lowerhex (n / 16))
                                      (String (lowerhex (n mod 16)) "")))).

Fixpoint escapedBytes (s : string) : outcome string :=
  match s with
  | "" => Ret ""
  | String c s' =>
      head ← escaped c;
      tail ← escapedBytes s';
      Ret (head +:+ tail)
  end.

(** [strconv.Quote(s)] *)
Definition Quote (s : string) : outcome string :=
  body ← escapedBytes s;
  Ret (String "034" (body +:+ String "034" "")).

End strconv.

(** ** Package fmt, with the verb [q]

    The formatter of [fmt] with [%q] on a string operand, which prints
    [strconv.Quote] of it. *)

Module fmtq.

Definition printArg (arg : fmt.any) (verb : ascii) : outcome string :=
  match arg with
  | fmt.String_ s =>
      if Ascii.eqb verb "q" then strconv.Quote s else fmt.printArg arg verb
  | _ => fmt.printArg arg verb
  end.

(** [p.doPrintf(format, a)], as [fmt.doPrintf], over a given [printArg]. *)
Fixpoint doPrintfWith (printArg : fmt.any → ascii → outcome string)
    (format : string) (a : list fmt.any) : outcome string :=
  match format with
  | "" => fmt.extra a
  | String c rest =>
      if Ascii.eqb c "%" then
        match rest with
        | "" => tail ← fmt.extra a; Ret ("%!(NOVERB)" +:+ tail)
        | String verb rest' =>
            if Ascii.eqb verb "%" then
              tail ← doPrintfWith printArg rest' a; Ret (String "%" tail)
            else if fmt.complexDirective verb then Unmodelled
            else
              match a with
              | [] =>
                  tail ← doPrintfWith printArg rest' [];
                  Ret ("%!" +:+ String verb "(MISSING)" +:+ tail)
              | arg :: a' =>
                  text ← printArg arg verb;
                  tail ← doPrintfWith printArg rest' a';
                  Ret (text +:+ tail)
              end
        end
      else tail ← doPrintfWith printArg rest a; Ret (String c tail)
  end.

(** [fmt.Sprintf(format, a...)] *)
Definition Sprintf (format : string) (a : list fmt.any) : outcome string :=
  doPrintfWith printArg format a.

End fmtq.

(** ** Package net/url *)

Module url.

Definition Values : Type := gmap string (list string).

(** [v.Get(key)] *)
Definition Get (v : Values) (key : string) : string :=
  match v !! key with
  | Some (value :: _) => value
  | _ => ""
  end.

(** [r.URL.Query()]: the parsed query of a request, which
    [http.Request.t] does not carry. *)
Class Query : Type := query : http.Request.t → Values.

End url.

(** ** messaging/signal.go: the sending side *)

Module signal.

Import messaging.

Module sendParams.
Record t : Type := mk { Recipient : list string; Message : string }.
End sendParams.

Module rpcRequest.
Record t : Type := mk {
  JSONRPC : string;
  Method : string;
  Params : sendParams.t;
  ID : Z
}.
End rpcRequest.

(** [s.enc.Encode(req)] on a connection in state [C]: encoding and
    writing are external to the program. *)
Class Encoder (C : Type) : Type :=
  Encode : C → rpcRequest.t → option error * C.

(** [net.Dial(network, address)] *)
Class Dialer (C : Type) : Type :=
  Dial : string → string → C + error.

(** The struct [signalReceiver]; [conn] stands for the connection with
    its encoder and decoder. *)
Module signalReceiver.
Record t (C : Type) : Type := mk {
  sources : list string;
  socket : string;
  conn : C;
  nextID : Z
}.
Arguments mk {C} sources socket conn nextID.
Arguments sources {C} _.
Arguments socket {C} _.
Arguments conn {C} _.
Arguments nextID {C} _.
End signalReceiver.

(** Arithmetic of the 64-bit [int]. *)
Definition int_wrap (z : Z) : Z := ((z + 2 ^ 63) mod 2 ^ 64 - 2 ^ 63)%Z.

Definition NewSignalReceiver {C : Type} {D : Dialer C}
    (socketPath : string) (sources : list string)
  : outcome (option (signalReceiver.t C) * option error) :=
  match Dial "unix" socketPath with
  | inr err =>
      err ← fmt.Errorf "dial error: %w" [fmt.Error_ err];
      Ret (None, Some err)
  | inl conn => Ret (Some (signalReceiver.mk sources socketPath conn 1), None)
  end.

Definition getNextID {C : Type} (s : signalReceiver.t C) : Z * signalReceiver.t C :=
  let id := signalReceiver.nextID s in
  (id,
   signalReceiver.mk (signalReceiver.sources s) (signalReceiver.socket s)
     (signalReceiver.conn s) (int_wrap (signalReceiver.nextID s + 1))).

Definition SendMessage {C : Type} {Enc : Encoder C}
    (s : signalReceiver.t C) (message : string) (replyTo : Message.t)
  : outcome (option error * signalReceiver.t C) :=
  let '(id, s) := getNextID s in
  let req :=
    rpcRequest.mk "2.0" "send"
      (sendParams.mk [Message.Source replyTo] message) id in
  let '(err, conn) := Encode (signalReceiver.conn s) req in
  let s :=
    signalReceiver.mk (signalReceiver.sources s) (signalReceiver.socket s)
      conn (signalReceiver.nextID s) in
  match err with
  | Some err =>
      err ← fmt.Errorf "encode error: %v" [fmt.Error_ err];
      Ret (Some err, s)
  | None => Ret (None, s)
  end.

#[global] Instance signalReceiver_MessageSender {C : Type} {Enc : Encoder C}
  : main.MessageSender (signalReceiver.t C) := SendMessage.

(** The messages a consumer reads from the channel of the receive
    loop. *)
Fixpoint delivered (events : list messaging.event) : list Message.t :=
  match events with
  | [] => []
  | ChanSend m :: events' => m :: delivered events'
  | _ :: events' => delivered events'
  end.

(** A connection that records the requests written to it: all writes
    succeed. *)
Definition recorder : Type := list rpcRequest.t.

Definition recorder_Encode : Encoder recorder :=
  λ c req, (None, c ++ [req]).

End signal.

(** ** messaging/telegram.go *)

Module telegram.

Import messaging.

(** The methods of [tgbotapi.Message] the adapter calls, on a message of
    type [M]; the library is external to the program. *)
Class BotMessage (M : Type) : Type := {
  Text : M → string;
  Chat_ID : M → Z;
  IsCommand : M → bool;
  Command : M → string;
  CommandArguments : M → string
}.

(** [update.Message] is a pointer: [None] is nil. *)
Definition parseTelegramMessage {M : Type} {Bot : BotMessage M} (update : option M)
  : Message.t :=
  match update with
  | None => Message.mk Update "" [] "" "" 0 ""
  | Some m =>
      let messageType := if negb (IsCommand m) then Chat else messaging.Command in
      let args :=
        if negb (String.eqb (CommandArguments m) "")
        then strings.Split (CommandArguments m) " "
        else [] in
      Message.mk messageType (Command m) args (Text m) "" (Chat_ID m) ""
  end.

(** One turn of the [select] of the receive loop: the context is done,
    the updates channel is closed, or an update arrives. *)
Inductive turn (M : Type) : Type :=
| CtxDone
| UpdatesClosed
| Received (update : option M).
Arguments CtxDone {M}.
Arguments UpdatesClosed {M}.
Arguments Received {M} update.

Inductive event : Type :=
| Log (line : string)
| StopReceivingUpdates
| ChanSend (m : Message.t)
| ChanClose.

(** The loop of [messageReceiver], after its first log line, on the
    turns [turns]; when they are used up the loop is blocked in the
    [select]. *)
Fixpoint receiveLoop {M : Type} {Bot : BotMessage M} (turns : list (turn M))
  : list event :=
  match turns with
  | [] => []
  | CtxDone :: _ =>
      [StopReceivingUpdates; Log "telegramReceiver: context done, returning"; ChanClose]
  | UpdatesClosed :: _ =>
      [Log "telegramReceiver: updates channel closed, exiting"; ChanClose]
  | Received update :: turns' =>
      ChanSend (parseTelegramMessage update) :: receiveLoop turns'
  end.

Definition messageReceiver {M : Type} {Bot : BotMessage M}
    (userName : string) (turns : list (turn M)) : outcome (list event) :=
  line ← fmt.Sprintf "Authorized on account %s" [fmt.String_ userName];
  Ret (Log line :: receiveLoop turns).

Fixpoint delivered (events : list event) : list Message.t :=
  match events with
  | [] => []
  | ChanSend m :: events' => m :: delivered events'
  | _ :: events' => delivered events'
  end.

End telegram.

(** ** main.go: secrets *)

Module config.

(** [GetSecret(envVar, cfgSetting)] in the environment [env]
    ([os.LookupEnv]). *)
Definition GetSecret (env : gmap string string) (envVar cfgSetting : string)
  : string * bool :=
  match env !! envVar with
  | Some secret => (secret, true)
  | None =>
      if negb (String.eqb cfgSetting "") then (cfgSetting, true)
      else ("", false)
  end.

End config.

(** ** httpd.go: the command handler *)

Module httpd.

Import messaging main.

Definition StatusBadRequest : Z := 400.
Definition StatusNotFound : Z := 404.
Definition StatusInternalServerError : Z := 500.

Module httpCommandHandler.
Record t (E : Type) : Type := mk {
  commands : gmap string Command.t;
  authToken : string;
  executor : E
}.
Arguments mk {E} commands authToken executor.
Arguments commands {E} _.
Arguments authToken {E} _.
Arguments executor {E} _.
End httpCommandHandler.

(** [w.Header().Set(key, value)] *)
Definition SetHeader (w : http.ResponseWriter.t) (key value : string)
  : http.ResponseWriter.t :=
  http.ResponseWriter.mk (http.ResponseWriter.Code w)
    (http.Header_Set (http.ResponseWriter.HeaderMap w) key value)
    (http.ResponseWriter.Body w).

(** [fmt.Fprint(w, s)] on a string: one [Write], which does not fail on
    the writer modelled by [http.ResponseWriter.t]. *)
Definition Fprint (w : http.ResponseWriter.t) (s : string)
  : http.ResponseWriter.t * option error :=
  (http.Write w s, None).

(** The loop of [ServeHTTP] over the declared parameter names: the
    values collected so far, or the first name without a value. *)
Fixpoint queryValues (query : url.Values) (args : list string) (values : list string)
  : string + list string :=
  match args with
  | [] => inr values
  | argKey :: args' =>
      let v := url.Get query argKey in
      if String.eqb v "" then inl argKey
      else queryValues query args' (values ++ [v])
  end.

(** [h.ServeHTTP(w, r)]: the writer and the executor after the call. *)
Definition ServeHTTP {E : Type} {Exec : commandExecutor E} {Q : url.Query}
    (h : httpCommandHandler.t E) (r : http.Request.t) (w : http.ResponseWriter.t)
  : outcome (http.ResponseWriter.t * E) :=
  let cmdName := strings.TrimPrefix (http.Request.URL_Path r) "/cmd/" in
  if String.eqb cmdName "" then
    Ret (http.Error w "no command specified" StatusBadRequest,
         httpCommandHandler.executor h)
  else
    match httpCommandHandler.commands h !! cmdName with
    | None =>
        text ← fmtq.Sprintf "unknown command %q" [fmt.String_ cmdName];
        Ret (http.Error w text StatusNotFound, httpCommandHandler.executor h)
    | Some cmdDef =>
        let query := url.query r in
        match queryValues query (Command.Args cmdDef) [] with
        | inl argKey =>
            text ← fmtq.Sprintf "missing required query parameter %q"
                     [fmt.String_ argKey];
            Ret (http.Error w text StatusBadRequest, httpCommandHandler.executor h)
        | inr values =>
            let msg := Message.mk messaging.Command cmdName values "" "" 0 "" in
            '(fullCmd, err) ← createCommand cmdDef msg;
            match err with
            | Some err =>
                Ret (http.Error w (errors.Error err) StatusBadRequest,
                     httpCommandHandler.executor h)
            | None =>
                '((output, err), executor) ←
                  execCommand (httpCommandHandler.executor h) fullCmd;
                let w :=
                  match err with
                  | Some err => http.Error w (errors.Error err) StatusBadRequest
                  | None => w
                  end in
                let w := SetHeader w "Content-Type" "text/plain" in
                let '(w, err) := Fprint w output in
                let w :=
                  match err with
                  | Some err =>
                      http.Error w (errors.Error err) StatusInternalServerError
                  | None => w
                  end in
                Ret (w, executor)
            end
        end
    end.

(** The handler [HttpServer] installs in the server, serving one request
    with the executor in state [executor]. *)
Definition HttpServer_Handler {E : Type} {Exec : commandExecutor E} {Q : url.Query}
    (env : gmap string string) (cfg : Config.t) (executor : E) : http.Handler :=
  let '(authToken, _) :=
    config.GetSecret env "HTTP_TOKEN_AUTH" (HttpdConfig.AuthToken (Config.Httpd cfg)) in
  let commandHandler :=
    httpCommandHandler.mk (Config.Commands cfg) authToken executor in
  setupMux cfg (λ r w, '(w, _) ← ServeHTTP commandHandler r w; Ret w).

End httpd.

(** ** Reading the traces *)

Module trace.

Import messaging main.

(** The read ends the receive loop of the socket adapter. *)
Definition terminal (r : read) : bool :=
  ctxDone r ||
  match decodeErr r with
  | Some err => errors.Is err errors.io_EOF || errors.Is err errors.net_ErrClosed
  | None => false
  end.

(** The message is of kind Command. *)
Definition isCommand (m : Message.t) : bool :=
  MessageType_eqb (Message.Type_ m) messaging.Command.

(** The calls of [SendMessage] in a trace of the dispatcher, in order. *)
Fixpoint replies (events : list main.event) : list (string * Message.t) :=
  match events with
  | [] => []
  | Sent text replyTo :: events' => (text, replyTo) :: replies events'
  | _ :: events' => replies events'
  end.

(** The calls of [execCommand] in a trace of the dispatcher, in order. *)
Fixpoint executed (events : list main.event) : list string :=
  match events with
  | [] => []
  | Executed command :: events' => command :: executed events'
  | _ :: events' => executed events'
  end.

(** [SendMessage] called for each reply in turn, whatever it returns. *)
Fixpoint sendAll {S : Type} {Sender : MessageSender S}
    (sr : S) (replies : list (string * Message.t)) : outcome S :=
  match replies with
  | [] => Ret sr
  | (text, replyTo) :: replies' =>
      '(_, sr) ← SendMessage sr text replyTo;
      sendAll sr replies'
  end.

(** The [send] requests for the replies, numbered from [id]. *)
Fixpoint requests (id : Z) (replies : list (string * Message.t))
  : list signal.rpcRequest.t :=
  match replies with
  | [] => []
  | (text, replyTo) :: replies' =>
      signal.rpcRequest.mk "2.0" "send"
        (signal.sendParams.mk [Message.Source replyTo] text) id
      :: requests (id + 1) replies'
  end.

(** The updates the Telegram loop takes before it stops. *)
Fixpoint taken {M : Type} (turns : list (telegram.turn M)) : list (option M) :=
  match turns with
  | telegram.Received update :: turns' => update :: taken turns'
  | _ => []
  end.

End trace.

(** ** The specification's vocabulary

    Definitions that follow the words of the specification, to compare
    the program with. *)

Module spec.

(** The template with each placeholder [%s] replaced by the
    corresponding argument, in the order supplied. *)
Fixpoint substitute (template : string) (args : list string) : string :=
  match template with
  | "" => ""
  | String c rest =>
      match rest with
      | String c' rest' =>
          if Ascii.eqb c "%" && Ascii.eqb c' "s" then
            match args with
            | arg :: args' => arg +:+ substitute rest' args'
            | [] => String c (String c' (substitute rest' []))
            end
          else String c (substitute rest args)
      | "" => String c ""
      end
  end.

(** Every ['%'] of the template starts a placeholder [%s]. *)
Fixpoint onlyPlaceholders (template : string) : bool :=
  match template with
  | "" => true
  | String c rest =>
      if Ascii.eqb c "%" then
        match rest with
        | String c' rest' => Ascii.eqb c' "s" && onlyPlaceholders rest'
        | "" => false
        end
      else onlyPlaceholders rest
  end.

(** White space: space, tab, line feed, vertical tab, form feed,
    carriage return. *)
Definition isSpace (c : ascii) : bool :=
  let n := nat_of_ascii c in
  (n =? 32)%nat || ((9 <=? n)%nat && (n <=? 13)%nat).

(** The whitespace-delimited tokens of a text: its maximal runs of
    bytes that are not white space. *)
Fixpoint tokens (text : string) : list string :=
  match text with
  | "" => []
  | String c rest =>
      if isSpace c then tokens rest
      else
        match rest with
        | "" => [String c ""]
        | String c' _ =>
            if isSpace c' then String c "" :: tokens rest
            else
              match tokens rest with
              | t :: ts => String c t :: ts
              | [] => [String c ""]
              end
        end
  end.

(** The sender number of a decoded notification. *)
Definition sender (rp : messaging.ReceiveParams.t) : string :=
  messaging.Envelope.SourceNumber (messaging.ReceiveParams.Envelope rp).

(** The message text of a decoded notification. *)
Definition text (rp : messaging.ReceiveParams.t) : string :=
  messaging.SentMessage.Message
    (messaging.SyncMessage.SentMessage
       (messaging.Envelope.SyncMessage (messaging.ReceiveParams.Envelope rp))).

(** The text is made of tokens separated by one space each: no other
    white space, no space at either end, no two spaces in a row. *)
Fixpoint singleSpaced (text : string) : bool :=
  match text with
  | "" => false
  | String c rest =>
      negb (isSpace c) &&
      match rest with
      | "" => true
      | String c' rest' =>
          if Ascii.eqb c' " " then singleSpaced rest' else singleSpaced rest
      end
  end.

End spec.

(** ** Test doubles

    The doubles of the test suite, and a decoder for the payloads of the
    examples below. *)

Module mock.

Import messaging main.

(** [MockMessageClient]: records the calls of [SendMessage] and
    returns nil. *)
Definition MessageClient : Type := list (string * Message.t).

Definition MessageClient_SendMessage : MessageSender MessageClient :=
  λ sr text replyTo, Ret (None, sr ++ [(text, replyTo)]).

(** [mockExecutor]: records the calls of [execCommand]; the command
    [error] fails, any other command is echoed. *)
Definition Executor : Type := list string.

Definition Executor_execCommand : commandExecutor Executor :=
  λ e command,
    if String.eqb command "error"
    then Ret (("", Some (errors.New "assert.AnError general error for testing")),
              e ++ [command])
    else Ret ((command, None), e ++ [command]).

Definition quoted (s : string) : string := String "034" (s +:+ String "034" "").

(** The params of a [receive] notification with the given sender
    number and message text, as JSON. *)
Definition params (sourceNumber message : string) : json.RawMessage :=
  "{" +:+ quoted "envelope" +:+ ":{"
      +:+ quoted "sourceNumber" +:+ ":" +:+ quoted sourceNumber +:+ ","
      +:+ quoted "syncMessage" +:+ ":{" +:+ quoted "sentMessage" +:+ ":{"
      +:+ quoted "message" +:+ ":" +:+ quoted message +:+ "}}}}".

(** What [json.Unmarshal] decodes [params sourceNumber message] to. *)
Definition received (sourceNumber message : string) : ReceiveParams.t :=
  ReceiveParams.mk ""
    (Envelope.mk 0 0 "" 0 "" sourceNumber ""
       (SyncMessage.mk (SentMessage.mk "" "" "" 0 message 0 false)))
    0.

Definition payloads : list (string * string) :=
  [("+15551234567", "/greet Alice Bob");
   ("+15551234567", "command arg1");
   ("+15551234567", "/df  /");
   ("+15550000000", "hi there")].

(** [json.Unmarshal] on the payloads above; no other payload is decoded. *)
Definition Unmarshal_ReceiveParams : json.Unmarshal ReceiveParams.t :=
  λ raw,
    match find (λ p, String.eqb raw (params p.1 p.2)) payloads with
    | Some p => (received p.1 p.2, None)
    | None =>
        (received "" "", Some (errors.New "unexpected end of JSON input"))
    end.

Definition Unmarshal_SendResult : json.Unmarshal SendResult.t :=
  λ raw, (SendResult.mk 0 [], Some (errors.New "unexpected end of JSON input")).

End mock.

(** ** Sample data *)

Module sample.

Import messaging main.

Definition sources : list string := ["+15551234567"].

Definition greet_params : json.RawMessage :=
  mock.params "+15551234567" "/greet Alice Bob".

(** A command from a listed sender. *)
Definition greet_frame : read :=
  mkRead false (rpcMessage.mk "2.0" "receive" (Some greet_params) None None None) None.

Definition greet_message : Message.t :=
  Message.mk Command "greet" ["Alice"; "Bob"] greet_params "" 0 "+15551234567".


(** End of stream. *)
Definition eof : read :=
  mkRead false rpcMessage.zero (Some (errors.Sentinel errors.io_EOF)).

(** An RPC error that also carries params. *)
Definition error_frame : read :=
  mkRead false
    (rpcMessage.mk "2.0" "receive" (Some greet_params) None
       (Some (rpcError.mk (-32600) "Invalid Request")) (Some 3%Z))
    None.

Definition send_result : json.RawMessage :=
  "{" +:+ mock.quoted "timestamp" +:+ ":1618033988," +:+ mock.quoted "results" +:+ ":[]}".

(** The response to a [send] request. *)
Definition response_frame : read :=
  mkRead false (rpcMessage.mk "2.0" "" None (Some send_result) None (Some 1%Z)) None.

(** [json.Unmarshal] on [send_result]; no other payload is decoded. *)
Definition Unmarshal_SendResult : json.Unmarshal SendResult.t :=
  λ raw,
    if String.eqb raw send_result then (SendResult.mk 1618033988 [], None)
    else (SendResult.mk 0 [], Some (errors.New "unexpected end of JSON input")).

Definition table : gmap string Command.t :=
  {["greet" := Command.mk "echo Hello %s %s" ["name"; "times"]]}.

(** A template with two placeholders for one declared parameter. *)
Definition uneven : gmap string Command.t :=
  {["greet" := Command.mk "echo Hello %s %s" ["name"]]}.

Definition failing : gmap string Command.t :=
  {["failcmd" := Command.mk "error" []]}.

(** A fresh socket adapter over a connection that records what is
    written. *)
Definition receiver : signal.signalReceiver.t signal.recorder :=
  signal.signalReceiver.mk sources "/run/user/1000/signal-cli.socket" [] 1.

(** The query [name=world&times=2]. *)
Definition query_both : url.Query :=
  λ _, {["name" := ["world"]; "times" := ["2"]]}.

(** The query [name=world]. *)
Definition query_name : url.Query := λ _, {["name" := ["world"]]}.

Definition request (path : string) : http.Request.t := http.Request.mk "GET" path ∅.

End sample.

(** * Properties *)

(** ** Strings *)

Lemma prefix_nil (s : string) : String.prefix "" s = true.
Proof. by destruct s. Qed.

Lemma prefix_cons (a b : ascii) (s1 s2 : string) :
  String.prefix (String a s1) (String b s2) = Ascii.eqb b a && String.prefix s1 s2.
Proof.
  change (String.prefix (String a s1) (String b s2))
    with (if ascii_dec a b then String.prefix s1 s2 else false).
  destruct (ascii_dec a b) as [->|Hab].
  - by rewrite Ascii.eqb_refl.
  - assert (Ascii.eqb b a = false) as -> by (apply Ascii.eqb_neq; congruence).
    done.
Qed.

Lemma prefix_placeholder (c : ascii) (rest : string) :
  String.prefix "%s" (String c rest) =
  Ascii.eqb c "%" &&
  match rest with
  | String c' _ => Ascii.eqb c' "s"
  | "" => false
  end.
Proof.
  rewrite prefix_cons. destruct rest as [|c' rest']; [reflexivity|].
  by rewrite prefix_cons, prefix_nil, andb_true_r.
Qed.

Lemma Count_placeholder (rest : string) :
  strings.Count (String "%" (String "s" rest)) "%s" = S (strings.Count rest "%s").
Proof.
  unfold strings.Count. cbn [strings.count_from].
  by rewrite prefix_placeholder.
Qed.

Lemma Count_other (c : ascii) (rest : string) :
  String.prefix "%s" (String c rest) = false →
  strings.Count (String c rest) "%s" = strings.Count rest "%s".
Proof. unfold strings.Count. cbn [strings.count_from]. by intros ->. Qed.

Lemma split_from_nonempty (skip : nat) (s sep : string) :
  strings.split_from skip s sep ≠ [].
Proof.
  revert skip. induction s as [|c s IH]; intros skip;
    cbn [strings.split_from]; [done|].
  destruct skip as [|k]; [|apply IH].
  destruct (String.prefix sep (String c s)); [done|].
  by destruct (strings.split_from 0 s sep).
Qed.

Lemma Split_nonempty (s sep : string) : strings.Split s sep ≠ [].
Proof. apply split_from_nonempty. Qed.

Lemma Split_space_cons (c : ascii) (s : string) :
  strings.Split (String c s) " " =
  if Ascii.eqb c " " then "" :: strings.Split s " "
  else match strings.Split s " " with
       | t :: ts => String c t :: ts
       | [] => [String c ""]
       end.
Proof.
  unfold strings.Split. cbn [strings.split_from String.length Nat.sub].
  rewrite prefix_cons, prefix_nil, andb_true_r.
  by destruct (Ascii.eqb c " ").
Qed.

Lemma Join_cons_cons (e e' : string) (rest : list string) (sep : string) :
  strings.Join (e :: e' :: rest) sep = e +:+ sep +:+ strings.Join (e' :: rest) sep.
Proof. reflexivity. Qed.

(** Joining the pieces of a split with the separator gives the text back. *)
Lemma Join_Split_space (s : string) :
  strings.Join (strings.Split s " ") " " = s.
Proof.
  induction s as [|c s IH]; [reflexivity|].
  rewrite Split_space_cons.
  destruct (Ascii.eqb_spec c " ") as [->|Hc].
  - pose proof (Split_nonempty s " ") as Hne.
    destruct (strings.Split s " ") as [|t ts]; [done|].
    rewrite Join_cons_cons, IH. reflexivity.
  - pose proof (Split_nonempty s " ") as Hne.
    destruct (strings.Split s " ") as [|t ts]; [done|].
    destruct ts as [|t' ts].
    + cbn in *. by rewrite IH.
    + rewrite Join_cons_cons. rewrite Join_cons_cons in IH.
      by rewrite <- IH.
Qed.

(** ** Formatting *)

Lemma append_empty_r (s : string) : s +:+ "" = s.
Proof.
  induction s as [|c s IH]; [done|].
  change (String c (s +:+ "") = String c s). by rewrite IH.
Qed.

Lemma bind_Ret {A B : Type} (a : A) (f : A → outcome B) : Ret a ≫= f = f a.
Proof. reflexivity. Qed.

(** The text of the first error of [createCommand]. *)
Lemma Errorf_arity (defined supplied : Z) :
  fmt.Errorf "mismatch between command definition args=%d and number of args=%d"
    [fmt.Int defined; fmt.Int supplied] =
  Ret (errors.New ("mismatch between command definition args=" +:+ fmt.itoa defined
                   +:+ " and number of args=" +:+ fmt.itoa supplied)).
Proof.
  unfold fmt.Errorf, fmt.Sprintf. cbn -[fmt.itoa].
  by rewrite append_empty_r.
Qed.

(** The text of its second error: [%%] in the format prints one ['%']. *)
Lemma Errorf_placeholders (count declared : Z) :
  fmt.Errorf "mismatch between placeholders (%%s)=%d and number of args=%d"
    [fmt.Int count; fmt.Int declared] =
  Ret (errors.New ("mismatch between placeholders (%s)=" +:+ fmt.itoa count
                   +:+ " and number of args=" +:+ fmt.itoa declared)).
Proof.
  unfold fmt.Errorf, fmt.Sprintf. cbn -[fmt.itoa].
  by rewrite append_empty_r.
Qed.

Lemma doPrintf_literal (c : ascii) (rest : string) (a : list fmt.any) :
  Ascii.eqb c "%" = false →
  fmt.doPrintf (String c rest) a = (tail ← fmt.doPrintf rest a; Ret (String c tail)).
Proof. intros Hc. cbn [fmt.doPrintf]. by rewrite Hc. Qed.

Lemma doPrintf_placeholder (rest : string) (arg : string) (a : list fmt.any) :
  fmt.doPrintf (String "%" (String "s" rest)) (fmt.String_ arg :: a) =
  (tail ← fmt.doPrintf rest a; Ret (arg +:+ tail)).
Proof. reflexivity. Qed.

(** On a template whose only directives are [%s], with as many string
    operands as directives, the formatter substitutes the operands in
    order. *)
Lemma doPrintf_onlyPlaceholders (n : nat) :
  ∀ (template : string) (args : list string),
    String.length template ≤ n →
    spec.onlyPlaceholders template = true →
    strings.Count template "%s" = length args →
    fmt.doPrintf template (map fmt.String_ args) = Ret (spec.substitute template args).
Proof.
  induction n as [|n IH]; intros template args Hlen Honly Hcount.
  - destruct template; [|cbn in Hlen; lia].
    destruct args; [reflexivity|discriminate].
  - destruct template as [|c rest].
    { destruct args; [reflexivity|discriminate]. }
    cbn [String.length] in Hlen.
    destruct (Ascii.eqb c "%") eqn:Hc.
    + apply Ascii.eqb_eq in Hc as ->.
      cbn [spec.onlyPlaceholders] in Honly. rewrite Ascii.eqb_refl in Honly.
      destruct rest as [|c' rest']; [discriminate|].
      apply andb_prop in Honly as [Hs Hrest]. apply Ascii.eqb_eq in Hs as ->.
      rewrite Count_placeholder in Hcount.
      destruct args as [|arg args]; [discriminate|].
      cbn [length] in Hcount. cbn [String.length] in Hlen.
      cbn [map]. rewrite doPrintf_placeholder.
      rewrite (IH rest' args) by (done || lia).
      reflexivity.
    + cbn [spec.onlyPlaceholders] in Honly. rewrite Hc in Honly.
      rewrite Count_other in Hcount by (by rewrite prefix_placeholder, Hc).
      rewrite doPrintf_literal by done.
      rewrite (IH rest args) by (done || lia).
      rewrite bind_Ret. f_equal.
      cbn [spec.substitute]. rewrite Hc. by destruct rest.
Qed.

(** Without arguments nothing is replaced. *)
Lemma substitute_nil (template : string) : spec.substitute template [] = template.
Proof.
  enough (∀ c, spec.substitute (String c template) [] = String c template
               ∧ spec.substitute template [] = template) as H
    by apply (H "000"%char).
  induction template as [|c' rest IH]; intros c; [done|].
  destruct (IH c') as [Hcons Hrest]. split; [|done].
  cbn [spec.substitute] in *.
  destruct (Ascii.eqb c "%" && Ascii.eqb c' "s").
  - specialize (IH "000"%char) as [_ IH]. by rewrite IH.
  - by rewrite Hcons.
Qed.

(** ** The command templating engine *)

Section createCommand.
Import messaging main.

Implicit Types (c : Command.t) (m : Message.t).

(** C2.  When the number of arguments of the message differs from the
    number of declared parameter names, [createCommand] fails with the
    text "mismatch between command definition args=X and number of
    args=Y", X the declared and Y the supplied count, whatever the
    template is. *)
Theorem createCommand_arity_mismatch c m :
  length (Message.Args m) ≠ length (Command.Args c) →
  createCommand c m =
  Ret ("",
       Some (errors.New
               ("mismatch between command definition args="
                +:+ fmt.itoa (Z.of_nat (length (Command.Args c)))
                +:+ " and number of args="
                +:+ fmt.itoa (Z.of_nat (length (Message.Args m)))))).
Proof.
  intros Hne. unfold createCommand.
  apply Nat.eqb_neq in Hne. rewrite Hne. cbn [negb].
  by rewrite Errorf_arity.
Qed.

(** The case "too few provided" of the test suite. *)
Lemma createCommand_arity_mismatch_witness :
  createCommand (Command.mk "some_command %s %s" ["arg1"; "arg2"])
    (Message.mk Command "" ["only_one"] "" "" 0 "") =
  Ret ("",
       Some (errors.New
               "mismatch between command definition args=2 and number of args=1")).
Proof.
  apply (createCommand_arity_mismatch
           (Command.mk "some_command %s %s" ["arg1"; "arg2"])
           (Message.mk Command "" ["only_one"] "" "" 0 "")).
  cbn. lia.
Defined.

(** C3.  When the counts of arguments and of parameter names agree but
    the template has another number of [%s], [createCommand] fails with
    the text "mismatch between placeholders (%s)=X and number of
    args=Y", X the number of placeholders and Y the declared count. *)
Theorem createCommand_placeholder_mismatch c m :
  length (Message.Args m) = length (Command.Args c) →
  strings.Count (Command.Command c) "%s" ≠ length (Command.Args c) →
  createCommand c m =
  Ret ("",
       Some (errors.New
               ("mismatch between placeholders (%s)="
                +:+ fmt.itoa (Z.of_nat (strings.Count (Command.Command c) "%s"))
                +:+ " and number of args="
                +:+ fmt.itoa (Z.of_nat (length (Command.Args c)))))).
Proof.
  intros Heq Hne. unfold createCommand.
  rewrite Heq, Nat.eqb_refl. cbn [negb].
  apply Nat.eqb_neq in Hne. rewrite Hne. cbn [negb].
  by rewrite Errorf_placeholders.
Qed.

(** Two placeholders for one declared parameter. *)
Lemma createCommand_placeholder_mismatch_witness :
  createCommand (Command.mk "echo Hello %s %s" ["name"])
    (Message.mk Command "greet" ["world"] "" "" 0 "") =
  Ret ("",
       Some (errors.New "mismatch between placeholders (%s)=2 and number of args=1")).
Proof.
  apply (createCommand_placeholder_mismatch
           (Command.mk "echo Hello %s %s" ["name"])
           (Message.mk Command "greet" ["world"] "" "" 0 "")).
  - reflexivity.
  - cbn. lia.
Defined.

(** C9.  A definition with no parameter names and no [%s] in its
    template, rendered for a message without arguments, gives the
    template unchanged, whatever other ['%'] it contains. *)
Theorem createCommand_no_args_verbatim c m :
  Command.Args c = [] →
  strings.Count (Command.Command c) "%s" = 0 →
  Message.Args m = [] →
  createCommand c m = Ret (Command.Command c, None).
Proof.
  intros Hc Hcount Hm. unfold createCommand.
  by rewrite Hc, Hm, Hcount.
Qed.

(** A template with [%d], [%m] and a lone ['%']. *)
Lemma createCommand_no_args_verbatim_witness :
  createCommand (Command.mk "date +%d/%m 100%" [])
    (Message.mk Command "date" [] "" "" 0 "") =
  Ret ("date +%d/%m 100%", None).
Proof.
  apply (createCommand_no_args_verbatim
           (Command.mk "date +%d/%m 100%" [])
           (Message.mk Command "date" [] "" "" 0 ""));
    reflexivity.
Defined.

(** C1, as the specification states it, fails: [%d] is no placeholder
    for the count, but the formatter spends the argument on it. *)
Lemma createCommand_substitutes_counterexample :
  ¬ (∀ c m,
       length (Message.Args m) = length (Command.Args c) →
       strings.Count (Command.Command c) "%s" = length (Command.Args c) →
       createCommand c m =
       Ret (spec.substitute (Command.Command c) (Message.Args m), None)).
Proof.
  intros H.
  specialize (H (Command.mk "printf %d %s" ["n"])
                (Message.mk Command "printf" ["7"] "" "" 0 "")
                eq_refl eq_refl).
  vm_compute in H. discriminate H.
Qed.

(** C1, amended.  When the counts of arguments, of parameter names and
    of [%s] in the template agree and every ['%'] of the template
    starts a [%s], [createCommand] succeeds and returns the template
    with each [%s] replaced by the corresponding argument, in order. *)
Theorem createCommand_substitutes c m :
  length (Message.Args m) = length (Command.Args c) →
  strings.Count (Command.Command c) "%s" = length (Command.Args c) →
  spec.onlyPlaceholders (Command.Command c) = true →
  createCommand c m =
  Ret (spec.substitute (Command.Command c) (Message.Args m), None).
Proof.
  intros Hargs Hcount Honly. unfold createCommand.
  rewrite Hargs, Hcount, !Nat.eqb_refl. cbn [negb].
  destruct (length (Command.Args c) =? 0)%nat eqn:Hzero.
  - apply Nat.eqb_eq in Hzero. rewrite Hzero in Hargs.
    apply nil_length_inv in Hargs as ->.
    by rewrite substitute_nil.
  - unfold fmt.Sprintf.
    rewrite (doPrintf_onlyPlaceholders _ _ _ (le_n _) Honly) by congruence.
    reflexivity.
Qed.

(** The case "multiple arguments" of the test suite. *)
Lemma createCommand_substitutes_witness :
  createCommand (Command.mk "grep %s %s" ["pattern"; "file"])
    (Message.mk Command "grep" ["search_term"; "my_file.txt"] "" "" 0 "") =
  Ret ("grep search_term my_file.txt", None).
Proof.
  apply (createCommand_substitutes
           (Command.mk "grep %s %s" ["pattern"; "file"])
           (Message.mk Command "grep" ["search_term"; "my_file.txt"] "" "" 0 ""));
    reflexivity.
Defined.

End createCommand.

(** ** The executor *)

Section execCommand.
Import main.
Context {W : Type} `{!exec.Runner W}.

(** C10.  Splitting on a space yields at least one token, so
    [execCommand] never takes its "empty command" branch: it runs the
    first token with the others as arguments, and its result and its
    error are those of the process. *)
Theorem execCommand_runs_process (e : executor.t W) (command : string) :
  length (strings.Split command " ") ≠ 0 ∧
  ∃ name arg,
    strings.Split command " " = name :: arg ∧
    executor_execCommand e command =
    let '((output, err), os') := exec.CombinedOutput (executor.os e) name arg in
    Ret ((match err with Some _ => "" | None => output end, err),
         executor.mk os'
           (executor.logged e ++
              ["Executed command " +:+ command +:+ ". result: " +:+ output
               +:+ ". Err "
               +:+ match err with
                   | Some err => errors.Error err
                   | None => "%!s(<nil>)"
                   end])).
Proof.
  pose proof (Split_nonempty command " ") as Hne.
  unfold executor_execCommand.
  destruct (strings.Split command " ") as [|name arg]; [done|].
  split; [done|]. exists name, arg. split; [done|].
  cbn [length Nat.eqb].
  destruct (exec.CombinedOutput (executor.os e) name arg) as [[output err] os'].
  unfold fmt.Sprintf.
  assert (fmt.doPrintf "Executed command %s. result: %s. Err %s"
            [fmt.String_ command; fmt.String_ output; error_operand err] =
          Ret ("Executed command " +:+ command +:+ ". result: " +:+ output
               +:+ ". Err "
               +:+ match err with
                   | Some err => errors.Error err
                   | None => "%!s(<nil>)"
                   end)) as ->.
  { destruct err as [err|]; cbn; by rewrite ?append_empty_r. }
  by destruct err.
Qed.

End execCommand.

(** ** The dispatcher *)

Section MessagingPoller.
Import messaging main.
Context {S E : Type} `{!MessageSender S, !commandExecutor E}.

(** C4.  For a message of kind Command whose command is not in the
    command table, the dispatcher calls [SendMessage] with the text
    "Command not supported" and the message itself as the reply
    address, and goes on to the next message with the executor as it
    was: [execCommand] is not called. *)
Theorem MessagingPoller_unknown_command
    (update : Message.t) (updates : list Message.t) (sr sr' : S) (executor : E)
    (commands : gmap string Command.t) (err : option error) :
  Message.Type_ update = Command →
  commands !! Message.Command update = None →
  SendMessage sr "Command not supported" update = Ret (err, sr') →
  MessagingPoller (update :: updates) sr executor commands =
  ('(later, sr'', executor') ← MessagingPoller updates sr' executor commands;
   Ret (Sent "Command not supported" update
          :: match err with
             | Some err => [Logged ("Error sending a message: " +:+ errors.Error err)]
             | None => []
             end ++ later,
        sr'', executor')).
Proof.
  intros Hkind Hmiss Hsend.
  cbn [MessagingPoller]. rewrite Hkind, Hmiss. cbn [MessageType_eqb negb].
  rewrite bind_Ret. cbn beta iota. rewrite Hsend, bind_Ret. cbn beta iota.
  destruct err as [err|].
  - unfold fmt.Sprintf. cbn [fmt.doPrintf Ascii.eqb Bool.eqb].
    cbn. rewrite append_empty_r.
    destruct (MessagingPoller updates sr' executor commands) as [[[later sr''] ex']| |];
      reflexivity.
  - rewrite bind_Ret.
    destruct (MessagingPoller updates sr' executor commands) as [[[later sr''] ex']| |];
      reflexivity.
Qed.

End MessagingPoller.

(** The scenario of the test suite: the reply is sent, the executor has
    recorded no call. *)
Lemma MessagingPoller_unknown_command_witness :
  main.MessagingPoller (MessageSender0:=mock.MessageClient_SendMessage)
    (commandExecutor0:=mock.Executor_execCommand)
    [messaging.Message.mk messaging.Command "unknown" [] "" "" 0 ""] [] []
    {["testcmd" := main.Command.mk "echo %s" ["arg1"]]} =
  Ret ([main.Sent "Command not supported"
          (messaging.Message.mk messaging.Command "unknown" [] "" "" 0 "")],
       [("Command not supported",
         messaging.Message.mk messaging.Command "unknown" [] "" "" 0 "")],
       []).
Proof.
  apply (MessagingPoller_unknown_command
           (MessageSender0:=mock.MessageClient_SendMessage)
           (commandExecutor0:=mock.Executor_execCommand)
           (messaging.Message.mk messaging.Command "unknown" [] "" "" 0 "")
           [] [] _ [] _ None).
  - reflexivity.
  - vm_compute. reflexivity.
  - reflexivity.
Defined.

(** ** The socket adapter *)

Lemma isSpace_not_space (c : ascii) : spec.isSpace c = false → Ascii.eqb c " " = false.
Proof.
  intros Hc. apply Ascii.eqb_neq. intros ->. discriminate Hc.
Qed.

(** On a single-spaced text the pieces between the spaces are the
    whitespace-delimited tokens. *)
Lemma Split_singleSpaced (n : nat) :
  ∀ text : string,
    String.length text ≤ n →
    spec.singleSpaced text = true →
    strings.Split text " " = spec.tokens text.
Proof.
  induction n as [|n IH]; intros text Hlen Hsingle.
  { destruct text; [discriminate|cbn in Hlen; lia]. }
  destruct text as [|c rest]; [discriminate|].
  cbn [String.length] in Hlen.
  cbn [spec.singleSpaced] in Hsingle.
  apply andb_prop in Hsingle as [Hc Hrest].
  apply negb_true_iff in Hc.
  rewrite Split_space_cons, (isSpace_not_space c Hc).
  cbn [spec.tokens]. rewrite Hc.
  destruct rest as [|c' rest']; [reflexivity|].
  cbn [String.length] in Hlen.
  destruct (Ascii.eqb c' " ") eqn:Hc'.
  - apply Ascii.eqb_eq in Hc' as ->.
    rewrite Split_space_cons. cbn [Ascii.eqb Bool.eqb].
    change (spec.isSpace " ") with true. cbn iota.
    change (spec.tokens (String " " rest')) with (spec.tokens rest').
    by rewrite (IH rest') by (done || lia).
  - rewrite (IH (String c' rest')) by (done || cbn; lia).
    assert (spec.isSpace c' = false) as ->; [|done].
    cbn [spec.singleSpaced] in Hrest.
    apply andb_prop in Hrest as [Hsp _]. by apply negb_true_iff in Hsp.
Qed.

Section signal.
Import messaging.
Context {UnmarshalParams : json.Unmarshal ReceiveParams.t}
          {UnmarshalResult : json.Unmarshal SendResult.t}.

Implicit Types (msg : rpcMessage.t) (sources : list string) (r : read).

Import spec.

Lemma parseMessage_unlisted msg sources raw rp :
  rpcMessage.Params msg = Some raw →
  json.unmarshal raw = (rp, None) →
  slices.Contains sources (sender rp) = false →
  parseMessage msg sources =
  Ret (Message.zero,
       Some (errors.New ("messageReceiver: Message ignored as sources is not valid: "
                         +:+ sender rp))).
Proof.
  intros Hparams Hjson Hsrc. unfold parseMessage.
  rewrite Hparams. cbn [deref]. rewrite bind_Ret, Hjson.
  fold (sender rp). rewrite Hsrc. cbn [negb].
  unfold fmt.Errorf, fmt.Sprintf. cbn. by rewrite append_empty_r.
Qed.

(** C5.  A [receive] notification whose sender number is not in
    [sources] puts nothing on the channel: the loop logs one line and
    goes on to the next frame. *)
Theorem messageReceiver_drops_unlisted_sender sources r reads raw rp :
  ctxDone r = false →
  (∀ err, decodeErr r = Some err →
          errors.Is err errors.io_EOF = false ∧
          errors.Is err errors.net_ErrClosed = false) →
  rpcMessage.Method (decoded r) = "receive" →
  rpcMessage.Params (decoded r) = Some raw →
  json.unmarshal raw = (rp, None) →
  slices.Contains sources (sender rp) = false →
  messageReceiver sources (r :: reads) =
  (later ← messageReceiver sources reads;
   Ret (match rpcMessage.Error (decoded r) with
        | Some e => LogRPCError (rpcMessage.ID (decoded r)) (rpcError.Message e)
        | None =>
            Log ("messageReceiver: Message ignored as sources is not valid: "
                 +:+ sender rp)
        end :: later)).
Proof.
  intros Hctx Herr Hmethod Hparams Hjson Hsrc.
  cbn [messageReceiver]. rewrite Hctx.
  assert (match decodeErr r with
          | Some err =>
              if errors.Is err errors.io_EOF then
                Some "messageReceiver: socket closed (EOF), exiting"
              else if errors.Is err errors.net_ErrClosed then
                Some "messageReceiver: connection closed (net.ErrClosed), exiting"
              else None
          | None => None
          end = None) as ->.
  { destruct (decodeErr r) as [err|]; [|done].
    by destruct (Herr err eq_refl) as [-> ->]. }
  destruct (rpcMessage.Error (decoded r)) as [e|]; [reflexivity|].
  rewrite Hparams, Hmethod. cbn [String.eqb andb].
  rewrite bool_decide_eq_true_2 by eauto. cbn [andb].
  rewrite (parseMessage_unlisted _ _ raw rp) by done.
  reflexivity.
Qed.

(** C6, amended.  For a [receive] notification from a listed sender,
    the text is cut at each single space.  When the first piece begins
    with "/", the message has kind Command, its command is that piece
    without the "/", and its args are the other pieces.  Otherwise the
    message has kind Chat and keeps every piece, so that joining them
    with spaces gives the text back.  In both cases [Raw] is the params
    payload.  On a single-spaced text the pieces are the
    whitespace-delimited tokens. *)
Theorem parseMessage_classifies msg sources raw rp :
  rpcMessage.Params msg = Some raw →
  json.unmarshal raw = (rp, None) →
  slices.Contains sources (sender rp) = true →
  ∃ first rest,
    strings.Split (text rp) " " = first :: rest ∧
    (spec.singleSpaced (text rp) = true → spec.tokens (text rp) = first :: rest) ∧
    parseMessage msg sources =
    Ret (if strings.HasPrefix first "/"
         then Message.mk Command (strings.TrimPrefix first "/") rest raw "" 0 (sender rp)
         else Message.mk Chat first rest raw "" 0 (sender rp),
         None) ∧
    (strings.HasPrefix first "/" = false →
     strings.Join (first :: rest) " " = text rp).
Proof.
  intros Hparams Hjson Hsrc.
  pose proof (Split_nonempty (text rp) " ") as Hne.
  pose proof (Join_Split_space (text rp)) as Hjoin.
  pose proof (Split_singleSpaced _ (text rp) (le_n _)) as Htokens.
  destruct (strings.Split (text rp) " ") as [|first rest] eqn:Hsplit; [done|].
  exists first, rest. split; [done|]. split; [by intros <-%Htokens|].
  split; [|done].
  unfold parseMessage. rewrite Hparams. cbn [deref]. rewrite bind_Ret, Hjson.
  fold (sender rp). rewrite Hsrc. cbn [negb].
  fold (text rp). rewrite Hsplit.
  by destruct (strings.HasPrefix first "/").
Qed.

(** A decode failure that is neither end of stream nor a closed
    connection is not looked at: the loop goes on with what the
    decoder left in [msg]. *)
Lemma messageReceiver_ignores_decode_error sources r reads err :
  decodeErr r = Some err →
  errors.Is err errors.io_EOF = false →
  errors.Is err errors.net_ErrClosed = false →
  messageReceiver sources (r :: reads) =
  messageReceiver sources (mkRead (ctxDone r) (decoded r) None :: reads).
Proof.
  intros Herr Heof Hclosed. cbn [messageReceiver ctxDone decoded decodeErr].
  by rewrite Herr, Heof, Hclosed.
Qed.

(** End of stream and a closed connection end the loop and close the
    channel. *)
Lemma messageReceiver_exits sources r reads err :
  ctxDone r = false →
  decodeErr r = Some err →
  errors.Is err errors.io_EOF || errors.Is err errors.net_ErrClosed = true →
  ∃ line, messageReceiver sources (r :: reads) = Ret [Log line; ChanClose].
Proof.
  intros Hctx Herr His. cbn [messageReceiver]. rewrite Hctx, Herr.
  destruct (errors.Is err errors.io_EOF); [by eexists|].
  destruct (errors.Is err errors.net_ErrClosed); [by eexists|done].
Qed.

End signal.

(** A frame from a number that is not listed. *)
Lemma messageReceiver_drops_unlisted_sender_witness :
  messaging.messageReceiver
    (UnmarshalParams:=mock.Unmarshal_ReceiveParams) (UnmarshalResult:=mock.Unmarshal_SendResult)
    ["+15551234567"]
    [messaging.mkRead false
       (messaging.rpcMessage.mk "2.0" "receive"
          (Some (mock.params "+15550000000" "hi there")) None None None)
       None] =
  Ret [messaging.Log
         "messageReceiver: Message ignored as sources is not valid: +15550000000"].
Proof.
  apply (messageReceiver_drops_unlisted_sender
           (UnmarshalParams:=mock.Unmarshal_ReceiveParams)
           (UnmarshalResult:=mock.Unmarshal_SendResult)
           ["+15551234567"]
           (messaging.mkRead false
              (messaging.rpcMessage.mk "2.0" "receive"
                 (Some (mock.params "+15550000000" "hi there")) None None None)
              None)
           [] (mock.params "+15550000000" "hi there")
           (mock.received "+15550000000" "hi there")).
  - reflexivity.
  - intros err Herr. discriminate Herr.
  - reflexivity.
  - reflexivity.
  - vm_compute. reflexivity.
  - reflexivity.
Defined.

(** C6, as the specification states it, fails: two spaces in a row
    delimit an empty argument, which is no whitespace-delimited token. *)
Lemma parseMessage_whitespace_tokens_counterexample :
  ¬ (∀ (U : json.Unmarshal messaging.ReceiveParams.t) msg sources raw rp,
       messaging.rpcMessage.Params msg = Some raw →
       json.unmarshal raw = (rp, None) →
       slices.Contains sources (spec.sender rp) = true →
       ∃ m,
         messaging.parseMessage msg sources = Ret (m, None) ∧
         match spec.tokens (spec.text rp) with
         | first :: rest =>
             if strings.HasPrefix first "/" then
               messaging.Message.Type_ m = messaging.Command ∧
               messaging.Message.Command m = strings.TrimPrefix first "/" ∧
               messaging.Message.Args m = rest
             else
               messaging.Message.Type_ m = messaging.Chat ∧
               strings.Join (messaging.Message.Command m :: messaging.Message.Args m) " "
               = spec.text rp
         | [] =>
             messaging.Message.Type_ m = messaging.Chat ∧
             strings.Join (messaging.Message.Command m :: messaging.Message.Args m) " "
             = spec.text rp
         end).
Proof.
  intros H.
  destruct (H mock.Unmarshal_ReceiveParams
              (messaging.rpcMessage.mk "2.0" "receive"
                 (Some (mock.params "+15551234567" "/df  /")) None None None)
              ["+15551234567"]
              (mock.params "+15551234567" "/df  /")
              (mock.received "+15551234567" "/df  /"))
    as (m & Hm & Hclaim).
  - reflexivity.
  - vm_compute. reflexivity.
  - reflexivity.
  - vm_compute in Hm. injection Hm as <-.
    vm_compute in Hclaim. destruct Hclaim as (_ & _ & Hargs).
    discriminate Hargs.
Qed.

(** The command of the test suite. *)
Lemma parseMessage_classifies_witness :
  ∃ first rest,
    strings.Split "/greet Alice Bob" " " = first :: rest ∧
    (spec.singleSpaced "/greet Alice Bob" = true →
     spec.tokens "/greet Alice Bob" = first :: rest) ∧
    messaging.parseMessage (UnmarshalParams:=mock.Unmarshal_ReceiveParams)
      (messaging.rpcMessage.mk "2.0" "receive"
         (Some (mock.params "+15551234567" "/greet Alice Bob")) None None None)
      ["+15551234567"] =
    Ret (if strings.HasPrefix first "/"
         then messaging.Message.mk messaging.Command (strings.TrimPrefix first "/") rest
                (mock.params "+15551234567" "/greet Alice Bob") "" 0 "+15551234567"
         else messaging.Message.mk messaging.Chat first rest
                (mock.params "+15551234567" "/greet Alice Bob") "" 0 "+15551234567",
         None) ∧
    (strings.HasPrefix first "/" = false →
     strings.Join (first :: rest) " " = "/greet Alice Bob").
Proof.
  apply (parseMessage_classifies
           (UnmarshalParams:=mock.Unmarshal_ReceiveParams)
           (messaging.rpcMessage.mk "2.0" "receive"
              (Some (mock.params "+15551234567" "/greet Alice Bob")) None None None)
           ["+15551234567"]
           (mock.params "+15551234567" "/greet Alice Bob")
           (mock.received "+15551234567" "/greet Alice Bob")).
  - reflexivity.
  - vm_compute. reflexivity.
  - reflexivity.
Defined.

(** C7.  A frame whose [id] is a string makes [Decode] fail with a type
    error after it has filled [method] and [params]; the loop overlooks
    the failure, logs nothing and delivers the command of the frame. *)
Theorem messageReceiver_decode_error_delivers :
  messaging.messageReceiver
    (UnmarshalParams:=mock.Unmarshal_ReceiveParams) (UnmarshalResult:=mock.Unmarshal_SendResult)
    ["+15551234567"]
    [messaging.mkRead false
       (messaging.rpcMessage.mk "2.0" "receive"
          (Some (mock.params "+15551234567" "/greet Alice Bob")) None None None)
       (Some (errors.New
                "json: cannot unmarshal string into Go struct field rpcMessage.id of type int"))] =
  Ret [messaging.ChanSend
         (messaging.Message.mk messaging.Command "greet" ["Alice"; "Bob"]
            (mock.params "+15551234567" "/greet Alice Bob") "" 0 "+15551234567")].
Proof. vm_compute. reflexivity. Qed.

(** ** The auth gate *)

Section authMiddleware.
Import main.

Implicit Types (token : string) (next : http.Handler)
  (r : http.Request.t) (w : http.ResponseWriter.t).

(** With a token configured, a request whose [Authorization] header is
    not ["Token " + token] is answered by the gate itself. *)
Lemma authMiddleware_rejects token next r w :
  token ≠ "" →
  http.Header_Get (http.Request.Header r) "Authorization" ≠ "Token " +:+ token →
  authMiddleware token next r w =
  Ret (http.Error w "unauthorized" http.StatusUnauthorized).
Proof.
  intros Htoken Hauth. unfold authMiddleware.
  apply String.eqb_neq in Htoken, Hauth. by rewrite Htoken, Hauth.
Qed.

(** Without a token, or with the expected header, the request goes to
    the wrapped handler. *)
Lemma authMiddleware_passes token next r w :
  token = "" ∨
  http.Header_Get (http.Request.Header r) "Authorization" = "Token " +:+ token →
  authMiddleware token next r w = next r w.
Proof.
  unfold authMiddleware. intros [-> | ->]; [done|].
  by rewrite String.eqb_refl, andb_false_r.
Qed.

(** What the client sees of the gate's answer. *)
Lemma Error_unauthorized :
  http.ResponseWriter.Code
    (http.Error http.ResponseWriter.fresh "unauthorized" http.StatusUnauthorized)
  = Some 401%Z ∧
  http.ResponseWriter.Body
    (http.Error http.ResponseWriter.fresh "unauthorized" http.StatusUnauthorized)
  = "unauthorized" +:+ String "010" "".
Proof. split; reflexivity. Qed.

(** The mux sends the paths below [/cmd/] through the gate. *)
Lemma setupMux_cmd cfg commandHandler r w :
  http.isCleanPath (http.Request.URL_Path r) = true →
  strings.HasPrefix (http.Request.URL_Path r) "/cmd/" = true →
  setupMux cfg commandHandler r w =
  authMiddleware (HttpdConfig.AuthToken (Config.Httpd cfg)) commandHandler r w.
Proof.
  intros Hclean Hprefix. unfold setupMux, http.ServeHTTP. rewrite Hclean.
  unfold http.NewServeMux, http.Handle. cbn [app http.longestMatch].
  assert (http.matches "/health" (http.Request.URL_Path r) = false) as ->.
  { unfold http.matches. cbn [http.endsWithSlash].
    unfold strings.HasPrefix in Hprefix.
    destruct (http.Request.URL_Path r) as [|a [|b path]]; [done| |].
    - rewrite prefix_cons in Hprefix. by apply andb_prop in Hprefix as [_ ?].
    - rewrite !prefix_cons in Hprefix.
      apply andb_prop in Hprefix as [Ha Hprefix].
      apply andb_prop in Hprefix as [Hb _].
      apply Ascii.eqb_eq in Ha as ->. apply Ascii.eqb_eq in Hb as ->.
      reflexivity. }
  cbn [andb].
  assert (http.matches "/cmd/" (http.Request.URL_Path r) = true) as ->; [|done].
  unfold http.matches. by cbn [http.endsWithSlash].
Qed.

(** C8, as the specification states it, fails: the mux answers
    [/health] without consulting the gate. *)
Lemma setupMux_health_counterexample :
  ¬ (∀ (cfg : Config.t) (commandHandler : http.Handler) r w,
       HttpdConfig.AuthToken (Config.Httpd cfg) ≠ "" →
       http.Header_Get (http.Request.Header r) "Authorization"
       ≠ "Token " +:+ HttpdConfig.AuthToken (Config.Httpd cfg) →
       setupMux cfg commandHandler r w =
       Ret (http.Error w "unauthorized" http.StatusUnauthorized)).
Proof.
  intros H.
  specialize (H (Config.mk ∅ (SignalConfig.mk [] "") (TelegramConfig.mk false "") ""
                   (HttpdConfig.mk true ":8080" "secret"))
                (λ _ w, Ret w)
                (http.Request.mk "GET" "/health" ∅)
                http.ResponseWriter.fresh).
  assert (http.ResponseWriter.Code <$>
            setupMux (Config.mk ∅ (SignalConfig.mk [] "") (TelegramConfig.mk false "") ""
                        (HttpdConfig.mk true ":8080" "secret"))
              (λ _ w, Ret w) (http.Request.mk "GET" "/health" ∅)
              http.ResponseWriter.fresh
          = Ret (Some 200%Z)) as Hcode by reflexivity.
  rewrite H in Hcode; [discriminate Hcode|done|done].
Qed.

(** C8, amended.  For a request below [/cmd/]: with a non-empty token
    configured and an [Authorization] header that is not
    ["Token " + token] (an absent header reads as the empty string),
    the reply is 401 with the body "unauthorized" and the command
    handler is not run; with an empty token, or with the expected
    header, the request goes to the command handler.  A request to
    [/health] is answered 200 "ok" whatever the token, the header and
    the command handler are. *)
Theorem setupMux_auth_gate cfg commandHandler :
  (∀ r,
     http.isCleanPath (http.Request.URL_Path r) = true →
     strings.HasPrefix (http.Request.URL_Path r) "/cmd/" = true →
     (HttpdConfig.AuthToken (Config.Httpd cfg) ≠ "" →
      http.Header_Get (http.Request.Header r) "Authorization"
      ≠ "Token " +:+ HttpdConfig.AuthToken (Config.Httpd cfg) →
      ∃ reply,
        setupMux cfg commandHandler r http.ResponseWriter.fresh = Ret reply ∧
        http.ResponseWriter.Code reply = Some http.StatusUnauthorized ∧
        http.ResponseWriter.Body reply = "unauthorized" +:+ String "010" "") ∧
     (HttpdConfig.AuthToken (Config.Httpd cfg) = "" ∨
      http.Header_Get (http.Request.Header r) "Authorization"
      = "Token " +:+ HttpdConfig.AuthToken (Config.Httpd cfg) →
      ∀ w, setupMux cfg commandHandler r w = commandHandler r w)) ∧
  (∀ r,
     http.Request.URL_Path r = "/health" →
     (∀ w,
        setupMux cfg commandHandler r w =
        Ret (http.Write (http.WriteHeader w http.StatusOK) "ok")) ∧
     setupMux cfg commandHandler r http.ResponseWriter.fresh =
     Ret (http.ResponseWriter.mk (Some http.StatusOK) ∅ "ok")).
Proof.
  split.
  - intros r Hclean Hprefix. split.
    + intros Htoken Hauth. eexists. split.
      * rewrite setupMux_cmd by done. by apply authMiddleware_rejects.
      * apply Error_unauthorized.
    + intros Hpass w. rewrite setupMux_cmd by done. by apply authMiddleware_passes.
  - intros r Hpath.
    assert (∀ w, setupMux cfg commandHandler r w =
                 Ret (http.Write (http.WriteHeader w http.StatusOK) "ok")) as Hhealth.
    { intros w. unfold setupMux, http.ServeHTTP. by rewrite Hpath. }
    split; [done|]. by rewrite Hhealth.
Qed.

End authMiddleware.

(** A request below [/cmd/] with a [Bearer] header, and a request to
    [/health] without a header, under the token "secret". *)
Lemma setupMux_auth_gate_witness :
  (∃ reply,
     main.setupMux
       (main.Config.mk ∅ (main.SignalConfig.mk [] "") (main.TelegramConfig.mk false "") ""
          (main.HttpdConfig.mk true ":8080" "secret"))
       (λ _ w, Ret (http.Write w "done"))
       (http.Request.mk "GET" "/cmd/free" {["Authorization" := ["Bearer secret"]]})
       http.ResponseWriter.fresh = Ret reply ∧
     http.ResponseWriter.Code reply = Some http.StatusUnauthorized ∧
     http.ResponseWriter.Body reply = "unauthorized" +:+ String "010" "") ∧
  main.setupMux
    (main.Config.mk ∅ (main.SignalConfig.mk [] "") (main.TelegramConfig.mk false "") ""
       (main.HttpdConfig.mk true ":8080" "secret"))
    (λ _ w, Ret (http.Write w "done"))
    (http.Request.mk "GET" "/health" ∅)
    http.ResponseWriter.fresh =
  Ret (http.ResponseWriter.mk (Some http.StatusOK) ∅ "ok").
Proof.
  split.
  - apply (proj1 (setupMux_auth_gate
                    (main.Config.mk ∅ (main.SignalConfig.mk [] "")
                       (main.TelegramConfig.mk false "") ""
                       (main.HttpdConfig.mk true ":8080" "secret"))
                    (λ _ w, Ret (http.Write w "done")))
             (http.Request.mk "GET" "/cmd/free" {["Authorization" := ["Bearer secret"]]})).
    + reflexivity.
    + reflexivity.
    + cbn. discriminate.
    + vm_compute. discriminate.
  - apply (proj2 (setupMux_auth_gate
                    (main.Config.mk ∅ (main.SignalConfig.mk [] "")
                       (main.TelegramConfig.mk false "") ""
                       (main.HttpdConfig.mk true ":8080" "secret"))
                    (λ _ w, Ret (http.Write w "done")))
             (http.Request.mk "GET" "/health" ∅)).
    reflexivity.
Defined.

(** ** The scenarios of the test suite *)

Section tests.
Import messaging main.

Example TestCreateCommand_one_argument :
  createCommand (Command.mk "echo %s" ["text"])
    (Message.mk Command "" ["hello"] "" "" 0 "") =
  Ret ("echo hello", None).
Proof. reflexivity. Qed.

Example TestCreateCommand_too_many_provided :
  createCommand (Command.mk "another_command %s" ["arg1"])
    (Message.mk Command "" ["val1"; "val2"] "" "" 0 "") =
  Ret ("", Some (errors.New
                   "mismatch between command definition args=1 and number of args=2")).
Proof. reflexivity. Qed.

Example TestCreateCommand_no_format_specifiers :
  createCommand (Command.mk "fixed_command_with_args" ["placeholder1"])
    (Message.mk Command "" ["actual_arg1"] "" "" 0 "") =
  Ret ("", Some (errors.New "mismatch between placeholders (%s)=0 and number of args=1")).
Proof. reflexivity. Qed.

(** An escaped percent sign is counted as a placeholder and printed as
    text; the argument is reported as extra. *)
Example createCommand_escaped_percent :
  createCommand (Command.mk "echo %%s" ["text"])
    (Message.mk Command "" ["hello"] "" "" 0 "") =
  Ret ("echo %s%!(EXTRA string=hello)", None).
Proof. reflexivity. Qed.

Example TestParseMessage_ValidSourceChat :
  parseMessage (UnmarshalParams:=mock.Unmarshal_ReceiveParams)
    (rpcMessage.mk "2.0" "receive"
       (Some (mock.params "+15551234567" "command arg1")) None None None)
    ["+15551234567"; "+15559876543"] =
  Ret (Message.mk Chat "command" ["arg1"]
         (mock.params "+15551234567" "command arg1") "" 0 "+15551234567",
       None).
Proof. vm_compute. reflexivity. Qed.

Example TestParseMessage_InvalidSource :
  parseMessage (UnmarshalParams:=mock.Unmarshal_ReceiveParams)
    (rpcMessage.mk "2.0" "receive"
       (Some (mock.params "+15550000000" "hi there")) None None None)
    ["+15551234567"] =
  Ret (Message.zero,
       Some (errors.New
               "messageReceiver: Message ignored as sources is not valid: +15550000000")).
Proof. vm_compute. reflexivity. Qed.

(** A command, a frame from an unlisted sender, an RPC error, then end
    of stream. *)
Example messageReceiver_session :
  messageReceiver
    (UnmarshalParams:=mock.Unmarshal_ReceiveParams)
    (UnmarshalResult:=mock.Unmarshal_SendResult)
    ["+15551234567"]
    [mkRead false
       (rpcMessage.mk "2.0" "receive"
          (Some (mock.params "+15551234567" "/greet Alice Bob")) None None None)
       None;
     mkRead false
       (rpcMessage.mk "2.0" "receive"
          (Some (mock.params "+15550000000" "hi there")) None None None)
       None;
     mkRead false
       (rpcMessage.mk "2.0" "" None None (Some (rpcError.mk (-32600) "Invalid Request"))
          (Some 3%Z))
       None;
     mkRead false rpcMessage.zero (Some (errors.Sentinel errors.io_EOF))] =
  Ret [ChanSend (Message.mk Command "greet" ["Alice"; "Bob"]
                   (mock.params "+15551234567" "/greet Alice Bob") "" 0 "+15551234567");
       Log "messageReceiver: Message ignored as sources is not valid: +15550000000";
       LogRPCError (Some 3%Z) "Invalid Request";
       Log "messageReceiver: socket closed (EOF), exiting";
       ChanClose].
Proof. vm_compute. reflexivity. Qed.

Example TestMessagingPoller_successful_execution :
  MessagingPoller (MessageSender0:=mock.MessageClient_SendMessage)
    (commandExecutor0:=mock.Executor_execCommand)
    [Message.mk Chat "" [] "" "just a text" 0 "";
     Message.mk Command "testcmd" ["hello"] "" "" 0 ""] [] []
    {["testcmd" := Command.mk "echo %s" ["arg1"]]} =
  Ret ([Executed "echo hello";
        Sent "echo hello" (Message.mk Command "testcmd" ["hello"] "" "" 0 "")],
       [("echo hello", Message.mk Command "testcmd" ["hello"] "" "" 0 "")],
       ["echo hello"]).
Proof. vm_compute. reflexivity. Qed.

Example TestMessagingPoller_createCommand_fails :
  MessagingPoller (MessageSender0:=mock.MessageClient_SendMessage)
    (commandExecutor0:=mock.Executor_execCommand)
    [Message.mk Command "testcmd" [] "" "" 0 ""] [] []
    {["testcmd" := Command.mk "echo %s" ["arg1"]]} =
  Ret ([Sent ("Command formatting failed: "
              +:+ "mismatch between command definition args=1 and number of args=0")
          (Message.mk Command "testcmd" [] "" "" 0 "")],
       [("Command formatting failed: "
         +:+ "mismatch between command definition args=1 and number of args=0",
         Message.mk Command "testcmd" [] "" "" 0 "")],
       []).
Proof. vm_compute. reflexivity. Qed.

Example TestAuthMiddleware_correct_header :
  authMiddleware "secrettoken" (λ _ w, Ret (http.Write (http.WriteHeader w 200) "ok"))
    (http.Request.mk "GET" "/test" {["Authorization" := ["Token secrettoken"]]})
    http.ResponseWriter.fresh =
  Ret (http.ResponseWriter.mk (Some 200%Z) ∅ "ok").
Proof. reflexivity. Qed.

Example setupMux_health :
  setupMux
    (Config.mk ∅ (SignalConfig.mk [] "") (TelegramConfig.mk false "") ""
       (HttpdConfig.mk true ":8080" "secret"))
    (λ _ w, Ret w) (http.Request.mk "GET" "/health" ∅) http.ResponseWriter.fresh =
  Ret (http.ResponseWriter.mk (Some 200%Z) ∅ "ok").
Proof. reflexivity. Qed.

End tests.

(** * Further properties *)

(** ** Outcomes *)

Lemma bind_assoc {A B C : Type} (m : outcome A) (f : A → outcome B) (g : B → outcome C) :
  (m ≫= f) ≫= g = m ≫= (λ a, f a ≫= g).
Proof. by destruct m. Qed.

Lemma bind_ext {A B : Type} (m : outcome A) (f g : A → outcome B) :
  (∀ a, f a = g a) → m ≫= f = m ≫= g.
Proof. intros Hfg. destruct m; [apply Hfg|done|done]. Qed.

Lemma bind_Ret_inv {A B : Type} (m : outcome A) (f : A → outcome B) (b : B) :
  m ≫= f = Ret b → ∃ a, m = Ret a ∧ f a = Ret b.
Proof. destruct m as [a| |]; [by exists a|done|done]. Qed.

Lemma bind_Ret_r {A : Type} (m : outcome A) : m ≫= Ret = m.
Proof. by destruct m. Qed.

(** ** The receive loop of the socket adapter *)

Section receive_loop.
Import messaging.
Context {UnmarshalParams : json.Unmarshal ReceiveParams.t}
        {UnmarshalResult : json.Unmarshal SendResult.t}.

Implicit Types (msg : rpcMessage.t) (sources : list string) (r : read)
  (reads : list read) (events : list event).

Lemma parseMessage_listed msg sources m :
  parseMessage msg sources = Ret (m, None) →
  slices.Contains sources (Message.Source m) = true ∧
  Message.Type_ m ≠ Response.
Proof.
  unfold parseMessage. destruct (rpcMessage.Params msg) as [raw|]; [|done].
  cbn [deref]. rewrite bind_Ret.
  destruct (json.unmarshal raw) as [rp [err|]]; [done|].
  destruct (slices.Contains sources _) eqn:Hsrc; cbn [negb]; [|done].
  destruct (strings.Split _ " ") as [|first rest]; [done|].
  destruct (strings.HasPrefix first "/"); intros [= <-]; by split.
Qed.

Lemma parseResponse_kind msg m :
  parseResponse msg = Ret (m, None) → Message.Type_ m = Response.
Proof.
  unfold parseResponse. destruct (rpcMessage.Result msg) as [raw|]; [|done].
  cbn [deref]. rewrite bind_Ret.
  destruct (json.unmarshal raw) as [res [err|]]; [done|].
  by intros [= <-].
Qed.

(** A terminating read ends the loop whatever follows it. *)
Lemma messageReceiver_cons_exit sources r :
  trace.terminal r = true →
  ∃ line, ∀ reads, messageReceiver sources (r :: reads) = Ret [Log line; ChanClose].
Proof.
  unfold trace.terminal. intros Hterm. cbn [messageReceiver].
  destruct (ctxDone r); [by eexists|]. cbn [orb] in Hterm.
  destruct (decodeErr r) as [err|]; [|done].
  destruct (errors.Is err errors.io_EOF); [by eexists|].
  destruct (errors.Is err errors.net_ErrClosed); [by eexists|done].
Qed.

(** Any other read contributes one event, which is not the close of the
    channel, and a message only if it is a response or comes from a
    listed sender. *)
Lemma messageReceiver_cons_continue sources r :
  trace.terminal r = false →
  ∃ turn : outcome event,
    (∀ reads,
       messageReceiver sources (r :: reads) =
       (e ← turn; later ← messageReceiver sources reads; Ret (e :: later))) ∧
    (∀ e, turn = Ret e →
          e ≠ ChanClose ∧
          ∀ m, e = ChanSend m →
               Message.Type_ m = Response ∨
               (Message.Type_ m ≠ Response ∧
                slices.Contains sources (Message.Source m) = true)).
Proof.
  unfold trace.terminal. intros Hterm.
  apply orb_false_elim in Hterm as [Hctx Herr].
  assert (match decodeErr r with
          | Some err =>
              if errors.Is err errors.io_EOF then
                Some "messageReceiver: socket closed (EOF), exiting"
              else if errors.Is err errors.net_ErrClosed then
                Some "messageReceiver: connection closed (net.ErrClosed), exiting"
              else None
          | None => None
          end = None) as Hexit.
  { destruct (decodeErr r) as [err|]; [|done].
    apply orb_false_elim in Herr as [-> ->]. done. }
  cbn [messageReceiver]. rewrite Hctx, Hexit.
  destruct (rpcMessage.Error (decoded r)) as [e|].
  { eexists (Ret _). split; [done|]. intros ? [= <-]. by split. }
  destruct (bool_decide (is_Some (rpcMessage.Params (decoded r)))
            && String.eqb (rpcMessage.Method (decoded r)) "receive").
  { exists ('(m, err) ← parseMessage (decoded r) sources;
            Ret (match err with
                 | Some err => Log (errors.Error err)
                 | None => ChanSend m
                 end)).
    split.
    - intros reads. by destruct (parseMessage _ _) as [[m [err|]]| |].
    - intros e He. destruct (parseMessage _ _) as [[m [err|]]| |] eqn:Hparse;
        try done; injection He as <-; (split; [done|]); [done|].
      intros ? [= <-]. right. apply parseMessage_listed in Hparse as [? ?].
      by split. }
  destruct (bool_decide (is_Some (rpcMessage.Result (decoded r)))).
  { exists ('(m, err) ← parseResponse (decoded r);
            Ret (match err with
                 | Some err => Log (errors.Error err)
                 | None => ChanSend m
                 end)).
    split.
    - intros reads. by destruct (parseResponse _) as [[m [err|]]| |].
    - intros e He. destruct (parseResponse _) as [[m [err|]]| |] eqn:Hparse;
        try done; injection He as <-; (split; [done|]); [done|].
      intros ? [= <-]. left. by apply parseResponse_kind in Hparse. }
  eexists (Ret _). split; [done|]. intros ? [= <-]. by split.
Qed.

Lemma delivered_listed sources reads events m :
  messageReceiver sources reads = Ret events →
  m ∈ signal.delivered events →
  Message.Type_ m = Response ∨
  slices.Contains sources (Message.Source m) = true.
Proof.
  revert events. induction reads as [|r reads IH]; intros events Hrun Hm.
  { injection Hrun as <-. by apply elem_of_nil in Hm. }
  destruct (trace.terminal r) eqn:Hterm.
  - destruct (messageReceiver_cons_exit sources r Hterm) as [line Hexit].
    rewrite Hexit in Hrun. injection Hrun as <-. by apply elem_of_nil in Hm.
  - destruct (messageReceiver_cons_continue sources r Hterm) as (turn & Hstep & Hturn).
    rewrite Hstep in Hrun.
    apply bind_Ret_inv in Hrun as (e & -> & Hrun).
    apply bind_Ret_inv in Hrun as (later & Hlater & [= <-]).
    destruct (Hturn e eq_refl) as [_ Hsend].
    destruct e; cbn [signal.delivered] in Hm; try by apply (IH later).
    apply elem_of_cons in Hm as [->|Hm]; [|by apply (IH later)].
    destruct (Hsend _ eq_refl) as [?|[_ ?]]; [by left|by right].
Qed.

(** X1.  Every message the receive loop puts on the channel is a
    response or comes from a sender of the allow-list. *)
Theorem messageReceiver_delivers_listed sources reads events m :
  messageReceiver sources reads = Ret events →
  m ∈ signal.delivered events →
  Message.Type_ m = Response ∨
  slices.Contains sources (Message.Source m) = true.
Proof. apply delivered_listed. Qed.

(** X2.  The loop stops at the first terminating read (context done,
    end of stream, closed connection): the reads after it change
    nothing. *)
Theorem messageReceiver_stops sources (pre : list read) r (post : list read) :
  trace.terminal r = true →
  messageReceiver sources (pre ++ r :: post) = messageReceiver sources (pre ++ [r]).
Proof.
  intros Hterm. induction pre as [|a pre IH]; cbn [app].
  - destruct (messageReceiver_cons_exit sources r Hterm) as [line Hexit].
    by rewrite !Hexit.
  - destruct (trace.terminal a) eqn:Ha.
    + destruct (messageReceiver_cons_exit sources a Ha) as [line Hexit].
      by rewrite !Hexit.
    + destruct (messageReceiver_cons_continue sources a Ha) as (turn & Hstep & _).
      by rewrite !Hstep, IH.
Qed.

(** Among the events of the loop itself, the close of the channel is
    present exactly when a terminating read is met, and it is the last
    one. *)
Lemma loop_ends_with_close sources reads events :
  messageReceiver sources reads = Ret events →
  (ChanClose ∈ events ↔ existsb trace.terminal reads = true) ∧
  (∀ before after, events = before ++ ChanClose :: after → after = []).
Proof.
  revert events. induction reads as [|r reads IH]; intros events Hrun.
  { injection Hrun as <-. split.
    - split; [by intros ?%elem_of_nil|done].
    - by intros [|? ?] ? ?. }
  cbn [existsb]. destruct (trace.terminal r) eqn:Hterm.
  - destruct (messageReceiver_cons_exit sources r Hterm) as [line Hexit].
    rewrite Hexit in Hrun. injection Hrun as <-. split.
    + split; [done|]. intros _. apply list_elem_of_further, list_elem_of_here.
    + intros [|? [|? [|? ?]]] after Heq; by simplify_eq/=.
  - destruct (messageReceiver_cons_continue sources r Hterm) as (turn & Hstep & Hturn).
    rewrite Hstep in Hrun.
    apply bind_Ret_inv in Hrun as (e & -> & Hrun).
    apply bind_Ret_inv in Hrun as (later & Hlater & [= <-]).
    destruct (Hturn e eq_refl) as [Hne _].
    destruct (IH later Hlater) as [IHin IHlast]. split.
    + cbn [orb]. rewrite elem_of_cons, <- IHin. split; [|by right].
      by intros [?|?].
    + intros [|x before] after Heq; simplify_eq/=; try done. by eapply IHlast.
Qed.

(** X3.  The loop closes its channel exactly when it meets a
    terminating read; it closes it once, and sends nothing on it after
    the close. *)
Theorem messageReceiver_closes_once sources reads events :
  messageReceiver sources reads = Ret events →
  (ChanClose ∈ events ↔ existsb trace.terminal reads = true) ∧
  (∀ before after,
     events = before ++ ChanClose :: after →
     (ChanClose ∉ before) ∧ (ChanClose ∉ after) ∧ signal.delivered after = []).
Proof.
  intros Hrun.
  destruct (loop_ends_with_close sources reads events Hrun) as [Hiff Hlast].
  split; [done|]. intros before after Hevents.
  rewrite (Hlast before after Hevents). split; [|split; [by intros ?%elem_of_nil|done]].
  intros (b1 & b2 & ->)%list_elem_of_split.
  rewrite <- app_assoc in Hevents. cbn [app] in Hevents.
  apply Hlast in Hevents. by destruct b2.
Qed.


(** X5.  A frame that carries an [error] member is logged and dropped,
    also when it carries [params] or a [result]. *)
Theorem messageReceiver_drops_rpc_error sources r reads e :
  trace.terminal r = false →
  rpcMessage.Error (decoded r) = Some e →
  messageReceiver sources (r :: reads) =
  (later ← messageReceiver sources reads;
   Ret (LogRPCError (rpcMessage.ID (decoded r)) (rpcError.Message e) :: later)).
Proof.
  unfold trace.terminal. intros Hterm Herror.
  apply orb_false_elim in Hterm as [Hctx Herr].
  cbn [messageReceiver]. rewrite Hctx, Herror.
  destruct (decodeErr r) as [err|]; [|done].
  by apply orb_false_elim in Herr as [-> ->].
Qed.

(** X6.  A frame with a [result] that is neither an error nor a
    [receive] notification is delivered as a message of kind Response
    whose [Raw] is the result; the allow-list is not consulted. *)
Theorem messageReceiver_delivers_response sources r reads raw res :
  trace.terminal r = false →
  rpcMessage.Error (decoded r) = None →
  rpcMessage.Params (decoded r) = None ∨ rpcMessage.Method (decoded r) ≠ "receive" →
  rpcMessage.Result (decoded r) = Some raw →
  json.unmarshal raw = (res, None) →
  messageReceiver sources (r :: reads) =
  (later ← messageReceiver sources reads;
   Ret (ChanSend (Message.mk Response "" [] raw "" 0 "") :: later)).
Proof.
  unfold trace.terminal. intros Hterm Herror Hnotif Hresult Hjson.
  apply orb_false_elim in Hterm as [Hctx Herr].
  cbn [messageReceiver]. rewrite Hctx, Herror.
  assert (bool_decide (is_Some (rpcMessage.Params (decoded r)))
          && String.eqb (rpcMessage.Method (decoded r)) "receive" = false) as ->.
  { destruct Hnotif as [->|Hmethod]; [done|].
    apply String.eqb_neq in Hmethod. rewrite Hmethod. apply andb_false_r. }
  rewrite Hresult. rewrite bool_decide_eq_true_2 by eauto.
  unfold parseResponse. rewrite Hresult. cbn [deref]. rewrite bind_Ret, Hjson.
  rewrite bind_Ret. cbn beta iota.
  by destruct (decodeErr r) as [err|];
    [apply orb_false_elim in Herr as [-> ->]|].
Qed.

End receive_loop.

(** ** The dispatcher loop *)

Lemma Sprintf_formatting_failed (err : error) :
  fmt.Sprintf "Command formatting failed: %v" [fmt.Error_ err] =
  Ret ("Command formatting failed: " +:+ errors.Error err).
Proof. unfold fmt.Sprintf. cbn. by rewrite append_empty_r. Qed.

Lemma Sprintf_command_failed (command : string) (err : error) :
  fmt.Sprintf "Command %s failed: %v" [fmt.String_ command; fmt.Error_ err] =
  Ret ("Command " +:+ command +:+ " failed: " +:+ errors.Error err).
Proof. unfold fmt.Sprintf. cbn. by rewrite append_empty_r. Qed.

Lemma Sprintf_error_sending (err : error) :
  fmt.Sprintf "Error sending a message: %v" [fmt.Error_ err] =
  Ret ("Error sending a message: " +:+ errors.Error err).
Proof. unfold fmt.Sprintf. cbn. by rewrite append_empty_r. Qed.

Lemma replies_app (a b : list main.event) :
  trace.replies (a ++ b) = trace.replies a ++ trace.replies b.
Proof.
  induction a as [|e a IH]; [done|]. destruct e; cbn; by rewrite ?IH.
Qed.

Lemma executed_app (a b : list main.event) :
  trace.executed (a ++ b) = trace.executed a ++ trace.executed b.
Proof.
  induction a as [|e a IH]; [done|]. destruct e; cbn; by rewrite ?IH.
Qed.

Section dispatcher.
Import messaging main.
Context {S E : Type} {Sender : MessageSender S} {Exec : commandExecutor E}.

Implicit Types (update : Message.t) (updates : list Message.t) (sr : S)
  (executor : E) (commands : gmap string Command.t) (events : list main.event).

Lemma MessagingPoller_skip update updates sr executor commands :
  trace.isCommand update = false →
  MessagingPoller (update :: updates) sr executor commands =
  MessagingPoller updates sr executor commands.
Proof. unfold trace.isCommand. intros Hkind. cbn [MessagingPoller]. by rewrite Hkind. Qed.

(** What the loop does for one message of kind Command: the text of the
    reply with the calls of the executor, then one call of
    [SendMessage], then the other messages. *)
Lemma MessagingPoller_turn update executor commands :
  trace.isCommand update = true →
  ∃ reply : outcome (string * list main.event * E),
    (∀ p, reply = Ret p →
          p.1.2 = [] ∨ ∃ command, p.1.2 = [Executed command]) ∧
    ∀ updates sr,
      MessagingPoller (update :: updates) sr executor commands =
      ('(text, calls, executor) ← reply;
       '(err, sr) ← SendMessage sr text update;
       '(later, sr, executor) ← MessagingPoller updates sr executor commands;
       Ret (calls ++ [Sent text update]
            ++ match err with
               | Some err =>
                   [Logged ("Error sending a message: " +:+ errors.Error err)]
               | None => []
               end ++ later,
            sr, executor)).
Proof.
  unfold trace.isCommand. intros Hkind.
  eexists. split; [|intros updates sr; cbn [MessagingPoller]; rewrite Hkind; cbn [negb]].
  2:{ apply bind_ext. intros [[text calls] executor'].
      apply bind_ext. intros [[err|] sr'].
      - by rewrite Sprintf_error_sending.
      - done. }
  intros [[text calls] executor'] Hreply. cbn.
  destruct (commands !! Message.Command update) as [command|].
  - apply bind_Ret_inv in Hreply as ([fmtCommand [err|]] & _ & Hreply).
    + rewrite Sprintf_formatting_failed in Hreply. injection Hreply as <- <- <-.
      by left.
    + apply bind_Ret_inv in Hreply as ([[output [err|]] executor''] & _ & Hreply).
      * rewrite Sprintf_command_failed in Hreply. injection Hreply as <- <- <-.
        right. by eexists.
      * injection Hreply as <- <- <-. right. by eexists.
  - injection Hreply as <- <- <-. by left.
Qed.

(** The same, read backwards from a run that returns. *)
Lemma MessagingPoller_turn_inv update updates sr executor commands events sr' executor' :
  trace.isCommand update = true →
  MessagingPoller (update :: updates) sr executor commands = Ret (events, sr', executor') →
  ∃ text calls err sr1 executor1 later,
    SendMessage sr text update = Ret (err, sr1) ∧
    MessagingPoller updates sr1 executor1 commands = Ret (later, sr', executor') ∧
    events = calls ++ [Sent text update]
             ++ match err with
                | Some err =>
                    [Logged ("Error sending a message: " +:+ errors.Error err)]
                | None => []
                end ++ later ∧
    (calls = [] ∨ ∃ command, calls = [Executed command]).
Proof.
  intros Hkind Hrun.
  destruct (MessagingPoller_turn update executor commands Hkind) as (reply & Hcalls & Hstep).
  rewrite Hstep in Hrun.
  apply bind_Ret_inv in Hrun as ([[text calls] executor1] & Hreply & Hrun).
  apply bind_Ret_inv in Hrun as ([err sr1] & Hsend & Hrun).
  apply bind_Ret_inv in Hrun as ([[later sr2] executor2] & Hlater & [= <- <- <-]).
  exists text, calls, err, sr1, executor1, later.
  repeat split; try done. apply (Hcalls _ Hreply).
Qed.

Lemma MessagingPoller_app_aux (first second : list Message.t) sr executor commands :
  MessagingPoller (first ++ second) sr executor commands =
  ('(events1, sr, executor) ← MessagingPoller first sr executor commands;
   '(events2, sr, executor) ← MessagingPoller second sr executor commands;
   Ret (events1 ++ events2, sr, executor)).
Proof.
  revert sr executor.
  induction first as [|update first IH]; intros sr executor; cbn [app].
  { cbn [MessagingPoller]. rewrite bind_Ret.
    by destruct (MessagingPoller second sr executor commands) as [[[? ?] ?]| |]. }
  destruct (trace.isCommand update) eqn:Hkind.
  - destruct (MessagingPoller_turn update executor commands Hkind) as (reply & _ & Hstep).
    rewrite !Hstep.
    destruct reply as [[[text calls] executor1]| |]; [|done|done]. rewrite !bind_Ret.
    destruct (SendMessage sr text update) as [[err sr1]| |]; [|done|done].
    rewrite !bind_Ret. rewrite IH.
    destruct (MessagingPoller first sr1 executor1 commands)
      as [[[events1 sr2] executor2]| |]; [|done|done].
    rewrite !bind_Ret.
    destruct (MessagingPoller second sr2 executor2 commands)
      as [[[events2 sr3] executor3]| |]; [|done|done].
    rewrite !bind_Ret. by rewrite <- !app_assoc.
  - by rewrite !MessagingPoller_skip.
Qed.

(** X7.  Running the dispatcher on two batches of messages one after the
    other is running it on their concatenation: it keeps no state of
    its own between messages. *)
Theorem MessagingPoller_app (first second : list Message.t) sr executor commands :
  MessagingPoller (first ++ second) sr executor commands =
  ('(events1, sr, executor) ← MessagingPoller first sr executor commands;
   '(events2, sr, executor) ← MessagingPoller second sr executor commands;
   Ret (events1 ++ events2, sr, executor)).
Proof. apply MessagingPoller_app_aux. Qed.

(** X8.  Messages that are not of kind Command are skipped without any
    effect: the dispatcher behaves as on the Command messages alone. *)
Theorem MessagingPoller_skips_other_kinds updates sr executor commands :
  MessagingPoller updates sr executor commands =
  MessagingPoller (List.filter trace.isCommand updates) sr executor commands.
Proof.
  revert sr executor.
  induction updates as [|update updates IH]; intros sr executor; [done|].
  cbn [List.filter]. destruct (trace.isCommand update) eqn:Hkind.
  - destruct (MessagingPoller_turn update executor commands Hkind) as (reply & _ & Hstep).
    rewrite !Hstep.
    apply bind_ext. intros [[text calls] executor1].
    apply bind_ext. intros [err sr1]. by rewrite IH.
  - by rewrite MessagingPoller_skip.
Qed.

Lemma MessagingPoller_replies_aux updates sr executor commands events sr' executor' :
  MessagingPoller updates sr executor commands = Ret (events, sr', executor') →
  (trace.replies events).*2 = List.filter trace.isCommand updates ∧
  length (trace.executed events) ≤ length (trace.replies events) ∧
  trace.sendAll sr (trace.replies events) = Ret sr'.
Proof.
  revert sr executor events.
  induction updates as [|update updates IH]; intros sr executor events Hrun.
  { by injection Hrun as <- <- <-. }
  cbn [List.filter]. destruct (trace.isCommand update) eqn:Hkind.
  - apply MessagingPoller_turn_inv in Hrun
      as (text & calls & err & sr1 & executor1 & later & Hsend & Hlater & -> & Hcalls);
      [|done].
    destruct (IH _ _ _ Hlater) as (IHr & IHe & IHs).
    rewrite !replies_app, !executed_app.
    assert (trace.replies calls = [] ∧ length (trace.executed calls) ≤ 1) as [-> ?].
    { destruct Hcalls as [->|[c ->]]; by split; cbn; lia || done. }
    assert (trace.replies
              match err with
              | Some err =>
                  [Logged ("Error sending a message: " +:+ errors.Error err)]
              | None => []
              end = [] ∧
            trace.executed
              match err with
              | Some err =>
                  [Logged ("Error sending a message: " +:+ errors.Error err)]
              | None => []
              end = []) as [-> ->] by (by destruct err).
    cbn [trace.replies trace.executed app fmap list_fmap snd trace.sendAll].
    rewrite Hsend, bind_Ret. cbn beta iota. rewrite IHr.
    split; [done|]. split; [|done].
    rewrite length_app. cbn [length]. lia.
  - rewrite MessagingPoller_skip in Hrun by done. by apply (IH _ _ _ Hrun).
Qed.


(** X11.  When the templating engine rejects a message, the reply is
    "Command formatting failed: " followed by its error text, and the
    executor is not called. *)
Theorem MessagingPoller_formatting_failed
    update updates sr sr' executor commands command text err senderr :
  Message.Type_ update = Command →
  commands !! Message.Command update = Some command →
  createCommand command update = Ret (text, Some err) →
  SendMessage sr ("Command formatting failed: " +:+ errors.Error err) update
  = Ret (senderr, sr') →
  MessagingPoller (update :: updates) sr executor commands =
  ('(later, sr'', executor') ← MessagingPoller updates sr' executor commands;
   Ret (Sent ("Command formatting failed: " +:+ errors.Error err) update
          :: match senderr with
             | Some e => [Logged ("Error sending a message: " +:+ errors.Error e)]
             | None => []
             end ++ later,
        sr'', executor')).
Proof.
  intros Hkind Hcommand Hcreate Hsend.
  cbn [MessagingPoller]. rewrite Hkind, Hcommand, Hcreate. cbn [MessageType_eqb negb].
  rewrite !bind_Ret. cbn beta iota.
  rewrite Sprintf_formatting_failed, !bind_Ret. cbn beta iota.
  rewrite Hsend, bind_Ret. cbn beta iota.
  destruct senderr as [e|].
  - by rewrite Sprintf_error_sending, bind_Ret.
  - by rewrite bind_Ret.
Qed.

(** X12.  When the template is rendered, the executor is called once
    with the rendered command; the reply is its output, or, when it
    fails, "Command <rendered> failed: " followed by its error text. *)
Theorem MessagingPoller_executes
    update updates sr sr' executor executor' commands command fmtCommand
    output execerr senderr :
  Message.Type_ update = Command →
  commands !! Message.Command update = Some command →
  createCommand command update = Ret (fmtCommand, None) →
  execCommand executor fmtCommand = Ret ((output, execerr), executor') →
  SendMessage sr
    match execerr with
    | Some e => "Command " +:+ fmtCommand +:+ " failed: " +:+ errors.Error e
    | None => output
    end update
  = Ret (senderr, sr') →
  MessagingPoller (update :: updates) sr executor commands =
  ('(later, sr'', executor'') ← MessagingPoller updates sr' executor' commands;
   Ret (Executed fmtCommand
          :: Sent match execerr with
                  | Some e => "Command " +:+ fmtCommand +:+ " failed: " +:+ errors.Error e
                  | None => output
                  end update
          :: match senderr with
             | Some e => [Logged ("Error sending a message: " +:+ errors.Error e)]
             | None => []
             end ++ later,
        sr'', executor'')).
Proof.
  intros Hkind Hcommand Hcreate Hexec Hsend.
  cbn [MessagingPoller]. rewrite Hkind, Hcommand, Hcreate. cbn [MessageType_eqb negb].
  rewrite !bind_Ret. cbn beta iota. rewrite Hexec, !bind_Ret. cbn beta iota.
  destruct execerr as [e|].
  - rewrite Sprintf_command_failed, !bind_Ret. cbn beta iota.
    rewrite Hsend, bind_Ret. cbn beta iota.
    destruct senderr as [e'|]; by rewrite ?Sprintf_error_sending, bind_Ret.
  - rewrite !bind_Ret. cbn beta iota.
    rewrite Hsend, bind_Ret. cbn beta iota.
    destruct senderr as [e'|]; by rewrite ?Sprintf_error_sending, bind_Ret.
Qed.

End dispatcher.

(** ** Sending through the socket adapter *)

Lemma int_wrap_small (z : Z) :
  (- 2 ^ 63 ≤ z < 2 ^ 63)%Z → signal.int_wrap z = z.
Proof.
  intros Hz. unfold signal.int_wrap.
  rewrite Z.mod_small; lia.
Qed.

Section signal_sender.
Import messaging signal.
Context {C : Type} {Enc : Encoder C}.

Implicit Types (s : signalReceiver.t C) (replies : list (string * Message.t)).

(** One call: the request carries the current id, the id advances, and
    a failure of the encoder is reported with the prefix
    "encode error: ". *)
Lemma SendMessage_step s message replyTo :
  SendMessage s message replyTo =
  let '(cause, conn) :=
    Encode (signalReceiver.conn s)
      (rpcRequest.mk "2.0" "send" (sendParams.mk [Message.Source replyTo] message)
         (signalReceiver.nextID s)) in
  Ret (match cause with
       | Some e => Some (errors.New ("encode error: " +:+ errors.Error e))
       | None => None
       end,
       signalReceiver.mk (signalReceiver.sources s) (signalReceiver.socket s) conn
         (int_wrap (signalReceiver.nextID s + 1))).
Proof.
  unfold SendMessage, getNextID. cbn.
  destruct (Encode _ _) as [[e|] conn]; [|done].
  unfold fmt.Errorf, fmt.Sprintf. cbn. by rewrite append_empty_r.
Qed.

(** X13.  Every call of [SendMessage] uses up one request id, also when
    writing the request fails: after n calls the counter has advanced
    by n (as long as it stays below 2^63), and the allow-list and the
    socket path are unchanged. *)
Theorem SendMessage_ids_advance s replies :
  (- 2 ^ 63 ≤ signalReceiver.nextID s)%Z →
  (signalReceiver.nextID s + Z.of_nat (length replies) < 2 ^ 63)%Z →
  ∃ s',
    trace.sendAll s replies = Ret s' ∧
    signalReceiver.nextID s' = (signalReceiver.nextID s + Z.of_nat (length replies))%Z ∧
    signalReceiver.sources s' = signalReceiver.sources s ∧
    signalReceiver.socket s' = signalReceiver.socket s.
Proof.
  revert s. induction replies as [|[text replyTo] replies IH]; intros s Hlow Hhigh.
  { exists s. cbn. repeat split; lia || done. }
  cbn [length] in Hhigh. cbn [trace.sendAll].
  unfold main.SendMessage, signalReceiver_MessageSender.
  rewrite SendMessage_step.
  destruct (Encode _ _) as [cause conn]. rewrite bind_Ret. cbn beta iota.
  rewrite int_wrap_small by lia.
  destruct (IH (signalReceiver.mk (signalReceiver.sources s) (signalReceiver.socket s)
                  conn (signalReceiver.nextID s + 1))) as (s' & Hrun & Hid & Hsrc & Hsock);
    cbn [signalReceiver.nextID]; [lia..|].
  exists s'. cbn [signalReceiver.nextID signalReceiver.sources signalReceiver.socket] in *.
  repeat split; try done. cbn [length]. lia.
Qed.

End signal_sender.

Section signal_recorder.
Import messaging main signal.

Implicit Types (s : signalReceiver.t recorder) (replies : list (string * Message.t)).

Lemma sendAll_recorder s replies :
  (- 2 ^ 63 ≤ signalReceiver.nextID s)%Z →
  (signalReceiver.nextID s + Z.of_nat (length replies) < 2 ^ 63)%Z →
  trace.sendAll (Sender:=signalReceiver_MessageSender (Enc:=recorder_Encode)) s replies =
  Ret (signalReceiver.mk (signalReceiver.sources s) (signalReceiver.socket s)
         (signalReceiver.conn s ++ trace.requests (signalReceiver.nextID s) replies)
         (signalReceiver.nextID s + Z.of_nat (length replies))).
Proof.
  revert s. induction replies as [|[text replyTo] replies IH]; intros s Hlow Hhigh.
  { cbn. rewrite app_nil_r, Z.add_0_r. by destruct s. }
  cbn [length] in Hhigh. cbn [trace.sendAll trace.requests].
  unfold main.SendMessage, signalReceiver_MessageSender.
  rewrite SendMessage_step. cbn [Encode recorder_Encode].
  rewrite bind_Ret. cbn beta iota.
  rewrite int_wrap_small by lia.
  rewrite IH; cbn [signalReceiver.nextID]; [|lia..].
  cbn [signalReceiver.sources signalReceiver.socket signalReceiver.conn length].
  rewrite <- app_assoc. cbn [app]. do 2 f_equal. lia.
Qed.

(** X14.  Replies sent through the socket adapter are written as [send]
    requests in the order of the calls, each addressed to the source
    of the message it answers and carrying the reply text, with
    consecutive ids starting at the adapter's counter. *)
Theorem SendMessage_writes_requests s replies :
  (- 2 ^ 63 ≤ signalReceiver.nextID s)%Z →
  (signalReceiver.nextID s + Z.of_nat (length replies) < 2 ^ 63)%Z →
  trace.sendAll (Sender:=signalReceiver_MessageSender (Enc:=recorder_Encode)) s replies =
  Ret (signalReceiver.mk (signalReceiver.sources s) (signalReceiver.socket s)
         (signalReceiver.conn s ++ trace.requests (signalReceiver.nextID s) replies)
         (signalReceiver.nextID s + Z.of_nat (length replies))).
Proof. apply sendAll_recorder. Qed.

Context {E : Type} {Exec : commandExecutor E}
        {UnmarshalParams : json.Unmarshal ReceiveParams.t}
        {UnmarshalResult : json.Unmarshal SendResult.t}.

(** X15.  The bot end to end over the socket adapter: for the frames
    read by the receive loop, the dispatcher writes one [send] request
    per delivered message of kind Command, and every request it writes
    is addressed to a number of the allow-list. *)
Theorem signal_bot_answers_listed_senders
    (sources : list string) (reads : list read) (received : list messaging.event)
    s s' (executor executor' : E) (commands : gmap string Command.t)
    (events : list main.event) :
  (- 2 ^ 63 ≤ signalReceiver.nextID s)%Z →
  (signalReceiver.nextID s + Z.of_nat (length reads) < 2 ^ 63)%Z →
  messageReceiver sources reads = Ret received →
  MessagingPoller (MessageSender0:=signalReceiver_MessageSender (Enc:=recorder_Encode))
    (delivered received) s executor commands = Ret (events, s', executor') →
  signalReceiver.conn s' =
    signalReceiver.conn s ++ trace.requests (signalReceiver.nextID s) (trace.replies events) ∧
  (trace.replies events).*2 = List.filter trace.isCommand (delivered received) ∧
  ∀ req, req ∈ trace.requests (signalReceiver.nextID s) (trace.replies events) →
         ∃ number, sendParams.Recipient (rpcRequest.Params req) = [number] ∧
                   slices.Contains sources number = true.
Proof.
  intros Hlow Hhigh Hreceive Hpoll.
  pose proof (MessagingPoller_replies_aux _ _ _ _ _ _ _ Hpoll) as (Hreplies & _ & Hsends).
  assert (length (trace.replies events) ≤ length reads) as Hlen.
  { rewrite <- (length_fmap snd), Hreplies.
    etrans; [apply List.filter_length_le|].
    clear -Hreceive. revert received Hreceive.
    induction reads as [|r reads IH]; intros received Hrun.
    { by injection Hrun as <-. }
    destruct (trace.terminal r) eqn:Hterm.
    - destruct (messageReceiver_cons_exit sources r Hterm) as [line Hexit].
      rewrite Hexit in Hrun. injection Hrun as <-. cbn. lia.
    - destruct (messageReceiver_cons_continue sources r Hterm) as (turn & Hstep & _).
      rewrite Hstep in Hrun.
      apply bind_Ret_inv in Hrun as (e & -> & Hrun).
      apply bind_Ret_inv in Hrun as (later & Hlater & [= <-]).
      specialize (IH later Hlater).
      destruct e; cbn [delivered length]; lia. }
  rewrite sendAll_recorder in Hsends by lia. injection Hsends as <-.
  cbn [signalReceiver.conn]. split; [done|]. split; [done|].
  assert (∀ text m, (text, m) ∈ trace.replies events →
                    slices.Contains sources (Message.Source m) = true) as Hlisted.
  { intros text m Hin.
    assert (m ∈ (trace.replies events).*2) as Hm.
    { apply list_elem_of_fmap. by exists (text, m). }
    rewrite Hreplies in Hm. apply list_elem_of_In, List.filter_In in Hm as [Hm Hkind].
    apply list_elem_of_In in Hm.
    destruct (delivered_listed _ _ _ _ Hreceive Hm) as [Hresp|?]; [|done].
    unfold trace.isCommand in Hkind. rewrite Hresp in Hkind. discriminate Hkind. }
  clear -Hlisted. generalize (signalReceiver.nextID s).
  induction (trace.replies events) as [|[text m] replies IH]; intros id req Hreq.
  { by apply elem_of_nil in Hreq. }
  cbn [trace.requests] in Hreq. apply elem_of_cons in Hreq as [->|Hreq].
  - exists (Message.Source m). split; [done|].
    apply (Hlisted text). apply list_elem_of_here.
  - apply (IH (λ t m' H, Hlisted t m' (list_elem_of_further _ _ _ H)) _ _ Hreq).
Qed.

End signal_recorder.

(** ** The templating engine, continued *)

Section createCommand_errors.
Import messaging main.

Implicit Types (c : Command.t) (m : Message.t).

Lemma createCommand_error_inv c m text err :
  createCommand c m = Ret (text, Some err) →
  text = "" ∧
  ((length (Message.Args m) ≠ length (Command.Args c) ∧
    err = errors.New
            ("mismatch between command definition args="
             +:+ fmt.itoa (Z.of_nat (length (Command.Args c)))
             +:+ " and number of args="
             +:+ fmt.itoa (Z.of_nat (length (Message.Args m))))) ∨
   (length (Message.Args m) = length (Command.Args c) ∧
    strings.Count (Command.Command c) "%s" ≠ length (Command.Args c) ∧
    err = errors.New
            ("mismatch between placeholders (%s)="
             +:+ fmt.itoa (Z.of_nat (strings.Count (Command.Command c) "%s"))
             +:+ " and number of args="
             +:+ fmt.itoa (Z.of_nat (length (Command.Args c)))))).
Proof.
  unfold createCommand.
  destruct (length (Message.Args m) =? length (Command.Args c))%nat eqn:Hargs;
    cbn [negb].
  - apply Nat.eqb_eq in Hargs.
    destruct (strings.Count (Command.Command c) "%s" =? length (Command.Args c))%nat
      eqn:Hcount; cbn [negb].
    + destruct (length (Command.Args c) =? 0)%nat; [done|].
      by destruct (fmt.Sprintf _ _).
    + apply Nat.eqb_neq in Hcount.
      rewrite Errorf_placeholders, bind_Ret. intros [= <- <-].
      split; [done|]. right. by repeat split.
  - apply Nat.eqb_neq in Hargs.
    rewrite Errorf_arity, bind_Ret. intros [= <- <-].
    split; [done|]. left. by split.
Qed.

(** X16.  [createCommand] returns an error exactly when the number of
    arguments or the number of [%s] differs from the number of declared
    parameters; the command string it returns with an error is empty. *)
Theorem createCommand_fails_iff c m :
  ((∃ text err, createCommand c m = Ret (text, Some err)) ↔
   length (Message.Args m) ≠ length (Command.Args c) ∨
   strings.Count (Command.Command c) "%s" ≠ length (Command.Args c)) ∧
  (∀ text err, createCommand c m = Ret (text, Some err) → text = "").
Proof.
  split.
  - split.
    + intros (text & err & Hrun).
      apply createCommand_error_inv in Hrun as (_ & [[? _]|(_ & ? & _)]);
        [by left|by right].
    + intros Hmismatch. unfold createCommand.
      destruct (length (Message.Args m) =? length (Command.Args c))%nat eqn:Hargs;
        cbn [negb].
      * apply Nat.eqb_eq in Hargs. destruct Hmismatch as [?|Hcount]; [done|].
        apply Nat.eqb_neq in Hcount. rewrite Hcount. cbn [negb].
        rewrite Errorf_placeholders, bind_Ret. by do 2 eexists.
      * rewrite Errorf_arity, bind_Ret. by do 2 eexists.
  - intros text err Hrun. by apply createCommand_error_inv in Hrun as [? _].
Qed.

End createCommand_errors.

(** ** The executor, continued *)

Lemma Count_space_cons (c : ascii) (s : string) :
  strings.Count (String c s) " " =
  if Ascii.eqb c " " then S (strings.Count s " ") else strings.Count s " ".
Proof.
  unfold strings.Count. cbn [strings.count_from String.length Nat.sub].
  rewrite prefix_cons, prefix_nil, andb_true_r.
  by destruct (Ascii.eqb c " ").
Qed.

(** No piece of a text cut at the spaces contains a space. *)
Lemma Split_space_free (s : string) :
  Forall (λ piece, strings.Count piece " " = 0) (strings.Split s " ").
Proof.
  induction s as [|c s IH]; [by repeat constructor|].
  rewrite Split_space_cons.
  destruct (Ascii.eqb c " ") eqn:Hc; [by constructor|].
  pose proof (Split_nonempty s " ") as Hne.
  destruct (strings.Split s " ") as [|t ts]; [done|].
  apply Forall_cons in IH as [Ht Hts]. constructor; [|done].
  by rewrite Count_space_cons, Hc.
Qed.

Section execCommand_arguments.
Import main.
Context {W : Type} {Run : exec.Runner W}.

(** X17.  [execCommand] runs the process named by the text before the
    first space, with the texts between the following spaces as
    arguments: none of them contains a space, empty ones included, and
    joined by single spaces they give the command back. *)
Theorem execCommand_arguments (e : executor.t W) (command : string) :
  ∃ name arg,
    strings.Join (name :: arg) " " = command ∧
    Forall (λ piece, strings.Count piece " " = 0) (name :: arg) ∧
    (let '((output, err), os') := exec.CombinedOutput (executor.os e) name arg in
     ∃ e',
       executor_execCommand e command =
       Ret ((match err with Some _ => "" | None => output end, err), e') ∧
       executor.os e' = os').
Proof.
  pose proof (Split_nonempty command " ") as Hne.
  pose proof (Join_Split_space command) as Hjoin.
  pose proof (Split_space_free command) as Hfree.
  unfold executor_execCommand.
  destruct (strings.Split command " ") as [|name arg]; [done|].
  exists name, arg. split; [done|]. split; [done|].
  cbn [length Nat.eqb].
  destruct (exec.CombinedOutput (executor.os e) name arg) as [[output err] os'].
  destruct (fmt.Sprintf _ _) as [line| |] eqn:Hline.
  - rewrite bind_Ret. destruct err; by eexists.
  - exfalso. unfold fmt.Sprintf in Hline. by destruct err.
  - exfalso. unfold fmt.Sprintf in Hline. by destruct err.
Qed.

End execCommand_arguments.

(** ** The HTTP command handler *)

Lemma append_append (a b c : string) : (a +:+ b) +:+ c = a +:+ b +:+ c.
Proof.
  induction a as [|x a IH]; [done|].
  change (String x ((a +:+ b) +:+ c) = String x (a +:+ b +:+ c)). by rewrite IH.
Qed.

Lemma doPrintfWith_fmt (format : string) :
  ∀ a, fmtq.doPrintfWith fmt.printArg format a = fmt.doPrintf format a.
Proof.
  enough (∀ n format a, String.length format ≤ n →
                        fmtq.doPrintfWith fmt.printArg format a = fmt.doPrintf format a)
    as H by (intros a; by apply (H (String.length format))).
  clear format. induction n as [|n IH]; intros format a Hlen.
  { destruct format; [done|cbn in Hlen; lia]. }
  destruct format as [|c rest]; [done|]. cbn [String.length] in Hlen.
  cbn [fmtq.doPrintfWith fmt.doPrintf].
  destruct (Ascii.eqb c "%").
  - destruct rest as [|verb rest']; [done|]. cbn [String.length] in Hlen.
    destruct (Ascii.eqb verb "%"); [by rewrite IH by lia|].
    destruct (fmt.complexDirective verb); [done|].
    destruct a as [|arg a']; [by rewrite IH by lia|].
    apply bind_ext. intros text. by rewrite IH by lia.
  - by rewrite IH by lia.
Qed.

Lemma Sprintf_unknown_command (name : string) :
  fmtq.Sprintf "unknown command %q" [fmt.String_ name] =
  (quoted ← strconv.Quote name; Ret ("unknown command " +:+ quoted)).
Proof.
  unfold fmtq.Sprintf. cbn. destruct (strconv.Quote name); cbn; [|done..].
  by rewrite append_empty_r.
Qed.

Lemma Sprintf_missing_parameter (name : string) :
  fmtq.Sprintf "missing required query parameter %q" [fmt.String_ name] =
  (quoted ← strconv.Quote name; Ret ("missing required query parameter " +:+ quoted)).
Proof.
  unfold fmtq.Sprintf. cbn. destruct (strconv.Quote name); cbn; [|done..].
  by rewrite append_empty_r.
Qed.

Lemma queryValues_acc (query : url.Values) (args values : list string) :
  httpd.queryValues query args values =
  match httpd.queryValues query args [] with
  | inl argKey => inl argKey
  | inr collected => inr (values ++ collected)
  end.
Proof.
  revert values. induction args as [|argKey args IH]; intros values.
  { cbn. by rewrite app_nil_r. }
  cbn [httpd.queryValues]. destruct (String.eqb (url.Get query argKey) ""); [done|].
  rewrite IH, (IH ([] ++ _)).
  destruct (httpd.queryValues query args []); [done|]. by rewrite <- app_assoc.
Qed.

(** When every declared parameter has a value, the loop collects the
    values in the order of the declaration. *)
Lemma queryValues_complete (query : url.Values) (args : list string) :
  Forall (λ argKey, url.Get query argKey ≠ "") args →
  httpd.queryValues query args [] = inr (map (url.Get query) args).
Proof.
  induction 1 as [|argKey args Hvalue _ IH]; [done|].
  cbn [httpd.queryValues map]. apply String.eqb_neq in Hvalue. rewrite Hvalue.
  by rewrite queryValues_acc, IH.
Qed.

(** Otherwise it stops at the first parameter without a value. *)
Lemma queryValues_missing (query : url.Values) (present : list string)
    (argKey : string) (rest : list string) :
  Forall (λ argKey, url.Get query argKey ≠ "") present →
  url.Get query argKey = "" →
  httpd.queryValues query (present ++ argKey :: rest) [] = inl argKey.
Proof.
  intros Hpresent Hmissing.
  induction Hpresent as [|k present Hvalue _ IH]; cbn [app httpd.queryValues].
  - by rewrite Hmissing.
  - apply String.eqb_neq in Hvalue. rewrite Hvalue. by rewrite queryValues_acc, IH.
Qed.

Lemma queryValues_inv (query : url.Values) (args values : list string) :
  httpd.queryValues query args [] = inr values →
  Forall (λ argKey, url.Get query argKey ≠ "") args ∧
  values = map (url.Get query) args.
Proof.
  revert values. induction args as [|argKey args IH]; intros values.
  { by intros [= <-]. }
  cbn [httpd.queryValues map].
  destruct (String.eqb (url.Get query argKey) "") eqn:Hvalue; [done|].
  rewrite queryValues_acc.
  destruct (httpd.queryValues query args []) as [|collected] eqn:Hrest; [done|].
  intros [= <-]. destruct (IH _ eq_refl) as [Hall ->].
  split; [|done]. constructor; [|done]. by apply String.eqb_neq.
Qed.

Section ServeHTTP.
Import messaging main httpd.
Context {E : Type} {Exec : commandExecutor E} {Q : url.Query}.

Implicit Types (h : httpCommandHandler.t E) (r : http.Request.t)
  (w : http.ResponseWriter.t).

(** X18.  A request naming a command that is not in the table is
    answered 404 with the quoted name, and the executor is not
    called. *)
Theorem ServeHTTP_unknown_command h r w quoted :
  strings.TrimPrefix (http.Request.URL_Path r) "/cmd/" ≠ "" →
  httpCommandHandler.commands h
    !! strings.TrimPrefix (http.Request.URL_Path r) "/cmd/" = None →
  strconv.Quote (strings.TrimPrefix (http.Request.URL_Path r) "/cmd/") = Ret quoted →
  ServeHTTP h r w =
  Ret (http.Error w ("unknown command " +:+ quoted) StatusNotFound,
       httpCommandHandler.executor h).
Proof.
  intros Hname Hmiss Hquote. unfold ServeHTTP.
  apply String.eqb_neq in Hname. rewrite Hname, Hmiss.
  by rewrite Sprintf_unknown_command, Hquote.
Qed.

(** X19.  When a declared parameter has no value in the query (absent
    or empty), the reply is 400 and names the first such parameter, in
    the order of the declaration; the executor is not called. *)
Theorem ServeHTTP_missing_parameter h r w cmdDef present argKey rest quoted :
  strings.TrimPrefix (http.Request.URL_Path r) "/cmd/" ≠ "" →
  httpCommandHandler.commands h
    !! strings.TrimPrefix (http.Request.URL_Path r) "/cmd/" = Some cmdDef →
  Command.Args cmdDef = present ++ argKey :: rest →
  Forall (λ k, url.Get (url.query r) k ≠ "") present →
  url.Get (url.query r) argKey = "" →
  strconv.Quote argKey = Ret quoted →
  ServeHTTP h r w =
  Ret (http.Error w ("missing required query parameter " +:+ quoted) StatusBadRequest,
       httpCommandHandler.executor h).
Proof.
  intros Hname Hcmd Hargs Hpresent Hmissing Hquote. unfold ServeHTTP.
  apply String.eqb_neq in Hname. rewrite Hname, Hcmd, Hargs.
  rewrite queryValues_missing by done.
  by rewrite Sprintf_missing_parameter, Hquote.
Qed.

(** X20.  The message handed to the templating engine has one non-empty
    argument per declared parameter, so on the HTTP path the engine can
    only fail on the number of placeholders. *)
Theorem ServeHTTP_arity_holds (query : url.Values) cmdDef cmdName values text err :
  queryValues query (Command.Args cmdDef) [] = inr values →
  createCommand cmdDef (Message.mk Command cmdName values "" "" 0 "")
  = Ret (text, Some err) →
  length values = length (Command.Args cmdDef) ∧
  Forall (λ v, v ≠ "") values ∧
  err = errors.New
          ("mismatch between placeholders (%s)="
           +:+ fmt.itoa (Z.of_nat (strings.Count (Command.Command cmdDef) "%s"))
           +:+ " and number of args="
           +:+ fmt.itoa (Z.of_nat (length (Command.Args cmdDef)))).
Proof.
  intros Hvalues Hcreate.
  apply queryValues_inv in Hvalues as [Hall ->].
  assert (length (map (url.Get query) (Command.Args cmdDef))
          = length (Command.Args cmdDef)) as Hlen by apply length_map.
  split; [done|]. split.
  { clear -Hall. induction Hall; by constructor. }
  apply createCommand_error_inv in Hcreate as (_ & [[Hne _]|(_ & _ & ->)]); [|done].
  by cbn [Message.Args] in Hne.
Qed.

(** What a call that reaches the executor writes. *)
Lemma ServeHTTP_run h r w cmdDef fullCmd output err executor' :
  strings.TrimPrefix (http.Request.URL_Path r) "/cmd/" ≠ "" →
  httpCommandHandler.commands h
    !! strings.TrimPrefix (http.Request.URL_Path r) "/cmd/" = Some cmdDef →
  Forall (λ k, url.Get (url.query r) k ≠ "") (Command.Args cmdDef) →
  createCommand cmdDef
    (Message.mk Command (strings.TrimPrefix (http.Request.URL_Path r) "/cmd/")
       (map (url.Get (url.query r)) (Command.Args cmdDef)) "" "" 0 "")
  = Ret (fullCmd, None) →
  execCommand (httpCommandHandler.executor h) fullCmd = Ret ((output, err), executor') →
  ServeHTTP h r w =
  Ret (http.Write
         (SetHeader
            match err with
            | Some err => http.Error w (errors.Error err) StatusBadRequest
            | None => w
            end "Content-Type" "text/plain")
         output,
       executor').
Proof.
  intros Hname Hcmd Hpresent Hcreate Hexec. unfold ServeHTTP.
  apply String.eqb_neq in Hname. rewrite Hname, Hcmd.
  rewrite queryValues_complete by done.
  rewrite Hcreate, bind_Ret. cbn beta iota. by rewrite Hexec.
Qed.

(** X21.  For a known command whose parameters all have values and
    whose template renders, the executor is called once with the
    rendered command; when it succeeds the reply is 200 with content
    type text/plain and the output as body. *)
Theorem ServeHTTP_success h r cmdDef fullCmd output executor' :
  strings.TrimPrefix (http.Request.URL_Path r) "/cmd/" ≠ "" →
  httpCommandHandler.commands h
    !! strings.TrimPrefix (http.Request.URL_Path r) "/cmd/" = Some cmdDef →
  Forall (λ k, url.Get (url.query r) k ≠ "") (Command.Args cmdDef) →
  createCommand cmdDef
    (Message.mk Command (strings.TrimPrefix (http.Request.URL_Path r) "/cmd/")
       (map (url.Get (url.query r)) (Command.Args cmdDef)) "" "" 0 "")
  = Ret (fullCmd, None) →
  execCommand (httpCommandHandler.executor h) fullCmd = Ret ((output, None), executor') →
  ServeHTTP h r http.ResponseWriter.fresh =
  Ret (http.ResponseWriter.mk (Some http.StatusOK) {["Content-Type" := ["text/plain"]]}
         output,
       executor').
Proof.
  intros Hname Hcmd Hpresent Hcreate Hexec.
  rewrite (ServeHTTP_run _ _ _ _ _ _ _ _ Hname Hcmd Hpresent Hcreate Hexec).
  reflexivity.
Qed.

(** X22.  When the executor fails, the reply is 400 with the error
    text as body; the handler does not stop there, and whatever output
    the executor returned with the error is appended to the body. *)
Theorem ServeHTTP_executor_failure h r cmdDef fullCmd output err executor' :
  strings.TrimPrefix (http.Request.URL_Path r) "/cmd/" ≠ "" →
  httpCommandHandler.commands h
    !! strings.TrimPrefix (http.Request.URL_Path r) "/cmd/" = Some cmdDef →
  Forall (λ k, url.Get (url.query r) k ≠ "") (Command.Args cmdDef) →
  createCommand cmdDef
    (Message.mk Command (strings.TrimPrefix (http.Request.URL_Path r) "/cmd/")
       (map (url.Get (url.query r)) (Command.Args cmdDef)) "" "" 0 "")
  = Ret (fullCmd, None) →
  execCommand (httpCommandHandler.executor h) fullCmd
  = Ret ((output, Some err), executor') →
  ∃ reply,
    ServeHTTP h r http.ResponseWriter.fresh = Ret (reply, executor') ∧
    http.ResponseWriter.Code reply = Some StatusBadRequest ∧
    http.ResponseWriter.Body reply = errors.Error err +:+ String "010" "" +:+ output.
Proof.
  intros Hname Hcmd Hpresent Hcreate Hexec.
  rewrite (ServeHTTP_run _ _ _ _ _ _ _ _ Hname Hcmd Hpresent Hcreate Hexec).
  eexists. split; [done|]. split; [done|].
  cbn [http.ResponseWriter.Body http.Write http.WriteHeader http.Error SetHeader
       http.ResponseWriter.Code http.ResponseWriter.fresh].
  change ("" +:+ ?x) with x. apply append_append.
Qed.

(** X23.  Whenever the handler returns, either the executor is as it
    was, or it was called once, on the rendering of a command of the
    table all of whose parameters have values in the query. *)
Theorem ServeHTTP_executes_only_rendered h r w reply executor' :
  ServeHTTP h r w = Ret (reply, executor') →
  executor' = httpCommandHandler.executor h ∨
  ∃ cmdDef fullCmd result,
    httpCommandHandler.commands h
      !! strings.TrimPrefix (http.Request.URL_Path r) "/cmd/" = Some cmdDef ∧
    Forall (λ k, url.Get (url.query r) k ≠ "") (Command.Args cmdDef) ∧
    createCommand cmdDef
      (Message.mk Command (strings.TrimPrefix (http.Request.URL_Path r) "/cmd/")
         (map (url.Get (url.query r)) (Command.Args cmdDef)) "" "" 0 "")
    = Ret (fullCmd, None) ∧
    execCommand (httpCommandHandler.executor h) fullCmd = Ret (result, executor').
Proof.
  unfold ServeHTTP.
  destruct (String.eqb _ ""); [intros [= _ <-]; by left|].
  destruct (httpCommandHandler.commands h !! _) as [cmdDef|] eqn:Hcmd.
  2:{ intros Hrun. apply bind_Ret_inv in Hrun as (text & _ & [= _ <-]). by left. }
  destruct (queryValues _ _ _) as [argKey|values] eqn:Hvalues.
  { intros Hrun. apply bind_Ret_inv in Hrun as (text & _ & [= _ <-]). by left. }
  apply queryValues_inv in Hvalues as [Hall ->].
  intros Hrun. apply bind_Ret_inv in Hrun as ([fullCmd [err|]] & Hcreate & Hrun).
  { injection Hrun as _ <-. by left. }
  apply bind_Ret_inv in Hrun as ([[output err] executor''] & Hexec & [= _ <-]).
  right. by exists cmdDef, fullCmd, (output, err).
Qed.

(** X24.  The handler the server installs does not depend on the
    environment: the token that [HttpServer] reads from
    [HTTP_TOKEN_AUTH] is stored in the command handler and never
    compared with anything, the gate of [setupMux] uses the token of
    the configuration file. *)
Theorem HttpServer_ignores_environment
    (env env' : gmap string string) (cfg : Config.t) (executor : E) :
  HttpServer_Handler env cfg executor = HttpServer_Handler env' cfg executor.
Proof.
  unfold HttpServer_Handler.
  by destruct (config.GetSecret env _ _), (config.GetSecret env' _ _).
Qed.

End ServeHTTP.

(** ** The polling adapter *)

Section telegram.
Import messaging telegram.
Context {M : Type} {Bot : BotMessage M}.


(** X26.  Until the context is done or the updates channel is closed,
    the loop delivers exactly one message per update, in order, also
    for updates without a message; it closes the channel only when it
    stops. *)
Theorem telegram_delivers_every_update (userName : string) (turns : list (turn M)) :
  ∃ events,
    messageReceiver userName turns
    = Ret (Log ("Authorized on account " +:+ userName) :: events) ∧
    delivered events = map parseTelegramMessage (trace.taken turns) ∧
    (ChanClose ∈ events ↔ length (trace.taken turns) < length turns).
Proof.
  exists (receiveLoop turns). split; [|split].
  - unfold messageReceiver, fmt.Sprintf. cbn. by rewrite append_empty_r.
  - induction turns as [|[| |update] turns IH]; try done. cbn. by rewrite IH.
  - induction turns as [|[| |update] turns IH]; cbn.
    + split; [by intros ?%elem_of_nil|lia].
    + split; [lia|]. intros _. do 2 apply list_elem_of_further. apply list_elem_of_here.
    + split; [lia|]. intros _. apply list_elem_of_further, list_elem_of_here.
    + rewrite elem_of_cons, IH. split; [intros [?|?]; [done|lia]|]. intros ?. right. lia.
Qed.

End telegram.

(** ** The properties above on sample data *)

Lemma messageReceiver_delivers_listed_witness :
  messaging.Message.Type_ sample.greet_message = messaging.Response ∨
  slices.Contains sample.sources (messaging.Message.Source sample.greet_message) = true.
Proof.
  apply (messageReceiver_delivers_listed
           (UnmarshalParams:=mock.Unmarshal_ReceiveParams)
           (UnmarshalResult:=sample.Unmarshal_SendResult)
           sample.sources [sample.greet_frame; sample.eof]
           [messaging.ChanSend sample.greet_message;
            messaging.Log "messageReceiver: socket closed (EOF), exiting";
            messaging.ChanClose]
           sample.greet_message).
  - vm_compute. reflexivity.
  - apply list_elem_of_here.
Defined.

Lemma messageReceiver_stops_witness :
  messaging.messageReceiver
    (UnmarshalParams:=mock.Unmarshal_ReceiveParams)
    (UnmarshalResult:=sample.Unmarshal_SendResult)
    sample.sources ([sample.greet_frame] ++ sample.eof :: [sample.greet_frame]) =
  messaging.messageReceiver
    (UnmarshalParams:=mock.Unmarshal_ReceiveParams)
    (UnmarshalResult:=sample.Unmarshal_SendResult)
    sample.sources ([sample.greet_frame] ++ [sample.eof]).
Proof.
  apply (messageReceiver_stops
           (UnmarshalParams:=mock.Unmarshal_ReceiveParams)
           (UnmarshalResult:=sample.Unmarshal_SendResult)
           sample.sources [sample.greet_frame] sample.eof [sample.greet_frame]).
  reflexivity.
Defined.

Lemma messageReceiver_closes_once_witness :
  (messaging.ChanClose
   ∈ [messaging.ChanSend sample.greet_message;
      messaging.Log "messageReceiver: socket closed (EOF), exiting";
      messaging.ChanClose]
   ↔ existsb trace.terminal [sample.greet_frame; sample.eof] = true) ∧
  (∀ before after,
     [messaging.ChanSend sample.greet_message;
      messaging.Log "messageReceiver: socket closed (EOF), exiting";
      messaging.ChanClose] = before ++ messaging.ChanClose :: after →
     (messaging.ChanClose ∉ before) ∧ (messaging.ChanClose ∉ after) ∧
     signal.delivered after = []).
Proof.
  apply (messageReceiver_closes_once
           (UnmarshalParams:=mock.Unmarshal_ReceiveParams)
           (UnmarshalResult:=sample.Unmarshal_SendResult)
           sample.sources [sample.greet_frame; sample.eof]).
  vm_compute. reflexivity.
Defined.


Lemma messageReceiver_drops_rpc_error_witness :
  messaging.messageReceiver
    (UnmarshalParams:=mock.Unmarshal_ReceiveParams)
    (UnmarshalResult:=sample.Unmarshal_SendResult)
    sample.sources [sample.error_frame] =
  Ret [messaging.LogRPCError (Some 3%Z) "Invalid Request"].
Proof.
  apply (messageReceiver_drops_rpc_error
           (UnmarshalParams:=mock.Unmarshal_ReceiveParams)
           (UnmarshalResult:=sample.Unmarshal_SendResult)
           sample.sources sample.error_frame []
           (messaging.rpcError.mk (-32600) "Invalid Request")).
  - reflexivity.
  - reflexivity.
Defined.

Lemma messageReceiver_delivers_response_witness :
  messaging.messageReceiver
    (UnmarshalParams:=mock.Unmarshal_ReceiveParams)
    (UnmarshalResult:=sample.Unmarshal_SendResult)
    sample.sources [sample.response_frame] =
  Ret [messaging.ChanSend
         (messaging.Message.mk messaging.Response "" [] sample.send_result "" 0 "")].
Proof.
  apply (messageReceiver_delivers_response
           (UnmarshalParams:=mock.Unmarshal_ReceiveParams)
           (UnmarshalResult:=sample.Unmarshal_SendResult)
           sample.sources sample.response_frame [] sample.send_result
           (messaging.SendResult.mk 1618033988 [])).
  - reflexivity.
  - reflexivity.
  - by left.
  - reflexivity.
  - vm_compute. reflexivity.
Defined.


Lemma MessagingPoller_formatting_failed_witness :
  main.MessagingPoller (MessageSender0:=mock.MessageClient_SendMessage)
    (commandExecutor0:=mock.Executor_execCommand)
    [sample.greet_message] [] [] sample.uneven =
  Ret ([main.Sent
          ("Command formatting failed: "
           +:+ "mismatch between command definition args=1 and number of args=2")
          sample.greet_message],
       [("Command formatting failed: "
         +:+ "mismatch between command definition args=1 and number of args=2",
         sample.greet_message)],
       []).
Proof.
  apply (MessagingPoller_formatting_failed
           (Sender:=mock.MessageClient_SendMessage) (Exec:=mock.Executor_execCommand)
           sample.greet_message [] [] _ [] sample.uneven
           (main.Command.mk "echo Hello %s %s" ["name"]) ""
           (errors.New "mismatch between command definition args=1 and number of args=2")
           None).
  - reflexivity.
  - vm_compute. reflexivity.
  - reflexivity.
  - reflexivity.
Defined.

Lemma MessagingPoller_executes_witness :
  main.MessagingPoller (MessageSender0:=mock.MessageClient_SendMessage)
    (commandExecutor0:=mock.Executor_execCommand)
    [sample.greet_message] [] [] sample.table =
  Ret ([main.Executed "echo Hello Alice Bob";
        main.Sent "echo Hello Alice Bob" sample.greet_message],
       [("echo Hello Alice Bob", sample.greet_message)],
       ["echo Hello Alice Bob"]).
Proof.
  apply (MessagingPoller_executes
           (Sender:=mock.MessageClient_SendMessage) (Exec:=mock.Executor_execCommand)
           sample.greet_message [] [] _ [] _ sample.table
           (main.Command.mk "echo Hello %s %s" ["name"; "times"])
           "echo Hello Alice Bob" "echo Hello Alice Bob" None None).
  - reflexivity.
  - vm_compute. reflexivity.
  - reflexivity.
  - reflexivity.
  - reflexivity.
Defined.

Lemma SendMessage_ids_advance_witness :
  ∃ s',
    trace.sendAll (Sender:=signal.signalReceiver_MessageSender (Enc:=signal.recorder_Encode))
      sample.receiver [("hi", sample.greet_message); ("there", sample.greet_message)]
    = Ret s' ∧
    signal.signalReceiver.nextID s' = (1 + Z.of_nat 2)%Z ∧
    signal.signalReceiver.sources s' = sample.sources ∧
    signal.signalReceiver.socket s' = "/run/user/1000/signal-cli.socket".
Proof.
  apply (SendMessage_ids_advance (Enc:=signal.recorder_Encode) sample.receiver
           [("hi", sample.greet_message); ("there", sample.greet_message)]).
  - by vm_compute.
  - by vm_compute.
Defined.

Lemma SendMessage_writes_requests_witness :
  trace.sendAll (Sender:=signal.signalReceiver_MessageSender (Enc:=signal.recorder_Encode))
    sample.receiver [("hi", sample.greet_message); ("there", sample.greet_message)] =
  Ret (signal.signalReceiver.mk sample.sources "/run/user/1000/signal-cli.socket"
         [signal.rpcRequest.mk "2.0" "send" (signal.sendParams.mk ["+15551234567"] "hi") 1;
          signal.rpcRequest.mk "2.0" "send" (signal.sendParams.mk ["+15551234567"] "there") 2]
         3).
Proof.
  apply (SendMessage_writes_requests sample.receiver
           [("hi", sample.greet_message); ("there", sample.greet_message)]).
  - by vm_compute.
  - by vm_compute.
Defined.

Lemma signal_bot_answers_listed_senders_witness :
  ∃ received events s' executor',
    messaging.messageReceiver
      (UnmarshalParams:=mock.Unmarshal_ReceiveParams)
      (UnmarshalResult:=sample.Unmarshal_SendResult)
      sample.sources [sample.greet_frame; sample.response_frame; sample.eof]
    = Ret received ∧
    main.MessagingPoller
      (MessageSender0:=signal.signalReceiver_MessageSender (Enc:=signal.recorder_Encode))
      (commandExecutor0:=mock.Executor_execCommand)
      (signal.delivered received) sample.receiver [] sample.table
    = Ret (events, s', executor') ∧
    signal.signalReceiver.conn s' =
      [] ++ trace.requests 1 (trace.replies events) ∧
    (trace.replies events).*2 = List.filter trace.isCommand (signal.delivered received) ∧
    ∀ req, req ∈ trace.requests 1 (trace.replies events) →
           ∃ number,
             signal.sendParams.Recipient (signal.rpcRequest.Params req) = [number] ∧
             slices.Contains sample.sources number = true.
Proof.
  do 4 eexists. split; [vm_compute; reflexivity|]. split; [vm_compute; reflexivity|].
  eapply (signal_bot_answers_listed_senders
           (Exec:=mock.Executor_execCommand)
           (UnmarshalParams:=mock.Unmarshal_ReceiveParams)
           (UnmarshalResult:=sample.Unmarshal_SendResult)
           sample.sources [sample.greet_frame; sample.response_frame; sample.eof]
           _ sample.receiver _ [] _ sample.table).
  - by vm_compute.
  - by vm_compute.
  - vm_compute. reflexivity.
  - vm_compute. reflexivity.
Defined.

Lemma ServeHTTP_unknown_command_witness :
  httpd.ServeHTTP (Exec:=mock.Executor_execCommand) (Q:=sample.query_both)
    (httpd.httpCommandHandler.mk ∅ "" []) (sample.request "/cmd/unknown")
    http.ResponseWriter.fresh =
  Ret (http.Error http.ResponseWriter.fresh
         ("unknown command " +:+ mock.quoted "unknown") httpd.StatusNotFound,
       []).
Proof.
  apply (ServeHTTP_unknown_command (Exec:=mock.Executor_execCommand)
           (Q:=sample.query_both)
           (httpd.httpCommandHandler.mk ∅ "" []) (sample.request "/cmd/unknown")
           http.ResponseWriter.fresh (mock.quoted "unknown")).
  - by vm_compute.
  - reflexivity.
  - reflexivity.
Defined.

Lemma ServeHTTP_missing_parameter_witness :
  httpd.ServeHTTP (Exec:=mock.Executor_execCommand) (Q:=sample.query_name)
    (httpd.httpCommandHandler.mk sample.table "" []) (sample.request "/cmd/greet")
    http.ResponseWriter.fresh =
  Ret (http.Error http.ResponseWriter.fresh
         ("missing required query parameter " +:+ mock.quoted "times")
         httpd.StatusBadRequest,
       []).
Proof.
  apply (ServeHTTP_missing_parameter (Exec:=mock.Executor_execCommand)
           (Q:=sample.query_name)
           (httpd.httpCommandHandler.mk sample.table "" []) (sample.request "/cmd/greet")
           http.ResponseWriter.fresh
           (main.Command.mk "echo Hello %s %s" ["name"; "times"])
           ["name"] "times" [] (mock.quoted "times")).
  - by vm_compute.
  - vm_compute. reflexivity.
  - reflexivity.
  - constructor; [by vm_compute|constructor].
  - vm_compute. reflexivity.
  - reflexivity.
Defined.

Lemma ServeHTTP_arity_holds_witness :
  length ["world"] = length ["name"] ∧
  Forall (λ v, v ≠ "") ["world"] ∧
  errors.New "mismatch between placeholders (%s)=2 and number of args=1" =
  errors.New
    ("mismatch between placeholders (%s)="
     +:+ fmt.itoa (Z.of_nat (strings.Count "echo Hello %s %s" "%s"))
     +:+ " and number of args=" +:+ fmt.itoa (Z.of_nat (length ["name"]))).
Proof.
  apply (ServeHTTP_arity_holds (sample.query_name (sample.request "/cmd/greet"))
           (main.Command.mk "echo Hello %s %s" ["name"]) "greet" ["world"] ""
           (errors.New "mismatch between placeholders (%s)=2 and number of args=1")).
  - vm_compute. reflexivity.
  - reflexivity.
Defined.

Lemma ServeHTTP_success_witness :
  httpd.ServeHTTP (Exec:=mock.Executor_execCommand) (Q:=sample.query_both)
    (httpd.httpCommandHandler.mk sample.table "" []) (sample.request "/cmd/greet")
    http.ResponseWriter.fresh =
  Ret (http.ResponseWriter.mk (Some http.StatusOK) {["Content-Type" := ["text/plain"]]}
         "echo Hello world 2",
       ["echo Hello world 2"]).
Proof.
  apply (ServeHTTP_success (Exec:=mock.Executor_execCommand) (Q:=sample.query_both)
           (httpd.httpCommandHandler.mk sample.table "" []) (sample.request "/cmd/greet")
           (main.Command.mk "echo Hello %s %s" ["name"; "times"])
           "echo Hello world 2" "echo Hello world 2" ["echo Hello world 2"]).
  - by vm_compute.
  - vm_compute. reflexivity.
  - repeat constructor; by vm_compute.
  - vm_compute. reflexivity.
  - reflexivity.
Defined.

Lemma ServeHTTP_executor_failure_witness :
  ∃ reply,
    httpd.ServeHTTP (Exec:=mock.Executor_execCommand) (Q:=sample.query_both)
      (httpd.httpCommandHandler.mk sample.failing "" []) (sample.request "/cmd/failcmd")
      http.ResponseWriter.fresh = Ret (reply, ["error"]) ∧
    http.ResponseWriter.Code reply = Some httpd.StatusBadRequest ∧
    http.ResponseWriter.Body reply =
      errors.Error (errors.New "assert.AnError general error for testing")
      +:+ String "010" "" +:+ "".
Proof.
  apply (ServeHTTP_executor_failure (Exec:=mock.Executor_execCommand)
           (Q:=sample.query_both)
           (httpd.httpCommandHandler.mk sample.failing "" [])
           (sample.request "/cmd/failcmd")
           (main.Command.mk "error" []) "error" ""
           (errors.New "assert.AnError general error for testing") ["error"]).
  - by vm_compute.
  - vm_compute. reflexivity.
  - constructor.
  - reflexivity.
  - reflexivity.
Defined.

Lemma ServeHTTP_executes_only_rendered_witness :
  ["echo Hello world 2"] = [] ∨
  ∃ cmdDef fullCmd result,
    sample.table !! strings.TrimPrefix "/cmd/greet" "/cmd/" = Some cmdDef ∧
    Forall (λ k, url.Get (sample.query_both (sample.request "/cmd/greet")) k ≠ "")
      (main.Command.Args cmdDef) ∧
    main.createCommand cmdDef
      (messaging.Message.mk messaging.Command (strings.TrimPrefix "/cmd/greet" "/cmd/")
         (map (url.Get (sample.query_both (sample.request "/cmd/greet")))
            (main.Command.Args cmdDef)) "" "" 0 "")
    = Ret (fullCmd, None) ∧
    mock.Executor_execCommand [] fullCmd = Ret (result, ["echo Hello world 2"]).
Proof.
  apply (ServeHTTP_executes_only_rendered (Exec:=mock.Executor_execCommand)
           (Q:=sample.query_both)
           (httpd.httpCommandHandler.mk sample.table "" []) (sample.request "/cmd/greet")
           http.ResponseWriter.fresh
           (http.ResponseWriter.mk (Some http.StatusOK)
              {["Content-Type" := ["text/plain"]]} "echo Hello world 2")).
  vm_compute. reflexivity.
Defined.
